(** * Jacques context manager: token estimation, calibration store and
      [/context] report parser

    A shallow embedding of the estimation core of the hook adapters
    ([hooks/adapters/tokenizer.py], [hooks/adapters/calibration.py] and
    [hooks/adapters/context_parser.py]) together with the properties stated
    for it.

    Conventions of the embedding.
    - A Python [str] is a list of Unicode code points ([list N]); literals are
      written as UTF-8 Rocq strings and decoded by [py].
    - A Python [float] is a binary64 primitive float.  Integer true division,
      [float(str)], [int(float)] and [round(x, 1)] are computed exactly through
      [SpecFloat]; nothing is idealised to rationals or reals.
    - A Python [dict] is an association list in insertion order.
    - Exceptions are values of [exn]; a function that may raise returns [res].
    - The calibration module runs in a state and exception monad over a
      [World]: its two globals, the calibration file, whether the file can
      be written, and the readings of [time.time()].
    - The regular-expression classes [\w] and [\d] are the ASCII ones and [\s]
      is Python's full white-space set: the parser model is exact on texts whose
      non-ASCII characters are neither letters nor digits (the glyphs, box
      drawing characters and the middle dot of a [/context] report). *)

From Stdlib Require Import String Ascii.
From Stdlib Require Import ZArith NArith List Bool Lia Floats.
Import ListNotations.
Open Scope Z_scope.

(* ================================================================== *)
(** * Python values *)
(* ================================================================== *)

Module Py.

(** ** Exceptions *)

Inductive exn : Type :=
| KeyError
| ValueError
| OverflowError
| ZeroDivisionError.

Inductive res (A : Type) : Type :=
| Ok (a : A)
| Raise (e : exn).
Arguments Ok {A} a.
Arguments Raise {A} e.

Definition rbind {A B : Type} (m : res A) (f : A -> res B) : res B :=
  match m with
  | Ok a => f a
  | Raise e => Raise e
  end.

(** ** Strings *)

Definition str : Type := list N.

Fixpoint bytes_of (s : string) : list N :=
  match s with
  | EmptyString => []
  | String a t => N_of_ascii a :: bytes_of t
  end.

(** UTF-8 decoding, used only to write literals. *)
Fixpoint utf8_decode (l : list N) : str :=
  match l with
  | [] => []
  | b0 :: t0 =>
    if (b0 <? 128)%N then b0 :: utf8_decode t0
    else
      match t0 with
      | [] => []
      | b1 :: t1 =>
        if (b0 <? 224)%N
        then ((b0 - 192) * 64 + (b1 - 128))%N :: utf8_decode t1
        else
          match t1 with
          | [] => []
          | b2 :: t2 =>
            if (b0 <? 240)%N
            then ((b0 - 224) * 4096 + (b1 - 128) * 64 + (b2 - 128))%N
                   :: utf8_decode t2
            else
              match t2 with
              | [] => []
              | b3 :: t3 =>
                ((b0 - 240) * 262144 + (b1 - 128) * 4096
                 + (b2 - 128) * 64 + (b3 - 128))%N :: utf8_decode t3
              end
          end
      end
  end.

Definition py (s : string) : str := utf8_decode (bytes_of s).

Definition len (s : str) : Z := Z.of_nat (List.length s).

Fixpoint str_eqb (a b : str) : bool :=
  match a, b with
  | [], [] => true
  | x :: a', y :: b' => (x =? y)%N && str_eqb a' b'
  | _, _ => false
  end.

(** [s.startswith(p)] *)
Fixpoint startswith (p s : str) : bool :=
  match p, s with
  | [], _ => true
  | x :: p', y :: s' => (x =? y)%N && startswith p' s'
  | _ :: _, [] => false
  end.

(** [sub in s] *)
Fixpoint str_in (sub s : str) : bool :=
  startswith sub s ||
  match s with
  | [] => false
  | _ :: t => str_in sub t
  end.

(** First occurrence of [sub] in [s], where the head of [s] has index [i];
    [-1] when there is none. *)
Fixpoint find_from (sub s : str) (i : Z) : Z :=
  if startswith sub s then i
  else
    match s with
    | [] => -1
    | _ :: t => find_from sub t (i + 1)
    end.

(** [s.find(sub, start)] for [start >= 0]. *)
Definition str_find (sub s : str) (start : Z) : Z :=
  if len s <? start then -1
  else find_from sub (skipn (Z.to_nat start) s) start.

(** [sub] occurs in [s] at index [p]. *)
Definition occurs (sub s : str) (p : Z) : Prop :=
  0 <= p /\ startswith sub (skipn (Z.to_nat p) s) = true.


(** Last occurrence of [sub] in [s], where the head of [s] has index [i];
    [-1] when there is none. *)
Fixpoint rfind_from (sub s : str) (i : Z) : Z :=
  match s with
  | [] => if startswith sub [] then i else -1
  | _ :: t =>
    let r := rfind_from sub t (i + 1) in
    if r =? -1 then (if startswith sub s then i else -1) else r
  end.

(** [s.rfind(sub)] *)
Definition str_rfind (sub s : str) : Z := rfind_from sub s 0.

(** [s[a:b]] for [0 <= a] and [0 <= b]. *)
Definition slice (s : str) (a b : Z) : str :=
  firstn (Z.to_nat b - Z.to_nat a) (skipn (Z.to_nat a) s).

(** [str.lower()].  ASCII capitals are mapped to their small letters.  The
    only non-ASCII characters whose lowercase form contains an ASCII letter
    are U+212A KELVIN SIGN and U+0130; every other non-ASCII character is
    left as it is (Python maps it to non-ASCII characters again, which no
    ASCII key can meet). *)
Definition lower_char (c : N) : str :=
  if ((65 <=? c) && (c <=? 90))%N then [(c + 32)%N]
  else if (c =? 8490)%N then [107%N]
  else if (c =? 304)%N then [105%N; 775%N]
  else [c].

Definition lower (s : str) : str := flat_map lower_char s.

(** A string of characters that [lower] leaves alone. *)
Definition lower_fixed (k : str) : Prop := lower k = k.

(** [str.isspace] for one character, also the class [\s]. *)
Definition is_space (c : N) : bool :=
  (((9 <=? c) && (c <=? 13)) || ((28 <=? c) && (c <=? 32))
   || (c =? 133) || (c =? 160) || (c =? 5760)
   || ((8192 <=? c) && (c <=? 8202))
   || (c =? 8232) || (c =? 8233) || (c =? 8239) || (c =? 8287)
   || (c =? 12288))%N.

Fixpoint lstrip (s : str) : str :=
  match s with
  | c :: t => if is_space c then lstrip t else s
  | [] => []
  end.

(** [str.strip()] *)
Definition strip (s : str) : str := rev (lstrip (rev (lstrip s))).


(** ** Dictionaries, in insertion order *)

Definition dict (V : Type) : Type := list (str * V).

Fixpoint dict_get {V : Type} (d : dict V) (k : str) : option V :=
  match d with
  | [] => None
  | (k', v) :: t => if str_eqb k' k then Some v else dict_get t k
  end.

(** [k in d] *)
Definition dict_mem {V : Type} (d : dict V) (k : str) : bool :=
  match dict_get d k with
  | Some _ => true
  | None => false
  end.

(** [d[k]] *)
Definition getitem {V : Type} (d : dict V) (k : str) : res V :=
  match dict_get d k with
  | Some v => Ok v
  | None => Raise KeyError
  end.

(** [d[k] = v]: an existing key keeps its place, a new one goes last. *)
Fixpoint dict_set {V : Type} (d : dict V) (k : str) (v : V) : dict V :=
  match d with
  | [] => [(k, v)]
  | (k', v') :: t =>
    if str_eqb k' k then (k', v) :: t else (k', v') :: dict_set t k v
  end.

(** [del d[k]]: a dictionary holds a key at most once, and the binding of
    [k] goes. *)
Fixpoint dict_del {V : Type} (d : dict V) (k : str) : dict V :=
  match d with
  | [] => []
  | (k', v') :: t =>
    if str_eqb k' k then dict_del t k else (k', v') :: dict_del t k
  end.

(** ** Floats and integers *)

Definition Z2SF (z : Z) : spec_float :=
  match z with
  | Z0 => S754_zero false
  | Zpos p => S754_finite false p 0
  | Zneg p => S754_finite true p 0
  end.

(** [a / b] on integers: the correctly rounded quotient. *)
Definition int_truediv (a b : Z) : res float :=
  if b =? 0 then Raise ZeroDivisionError
  else
    match SFdiv prec emax (Z2SF a) (Z2SF b) with
    | S754_infinity _ => Raise OverflowError
    | q => Ok (SF2Prim q)
    end.

(** [float(n)] for a small integer [n] (exact below [2^53]). *)
Definition float_of_int (n : Z) : float :=
  SF2Prim (binary_normalize prec emax n 0 false).

(** [min(a, b)] and [max(a, b)]: the first argument wins ties and
    incomparable values. *)
Definition fmin (a b : float) : float := if PrimFloat.ltb b a then b else a.
Definition fmax (a b : float) : float := if PrimFloat.ltb a b then b else a.

(** [int(x)]: truncation towards zero. *)
Definition int_of_float (x : float) : res Z :=
  match Prim2SF x with
  | S754_zero _ => Ok 0
  | S754_finite s m e =>
    let a := if 0 <=? e then Zpos m * 2 ^ e else Zpos m / 2 ^ (- e) in
    Ok (if s then - a else a)
  | S754_infinity _ => Raise OverflowError
  | S754_nan => Raise ValueError
  end.

(** Nearest integer to [n / d] for [0 <= n] and [0 < d], ties to even. *)
Definition div_half_even (n d : Z) : Z :=
  let q := n / d in
  let r := n mod d in
  if 2 * r <? d then q
  else if d <? 2 * r then q + 1
  else if Z.even q then q else q + 1.

(** [round(x, 1)]: the double nearest to the exact value of [x] rounded to
    one decimal, ties to even. *)
Definition round1 (x : float) : float :=
  match Prim2SF x with
  | S754_finite s m e =>
    let n :=
      if 0 <=? e then Zpos m * 2 ^ e * 10
      else div_half_even (Zpos m * 10) (2 ^ (- e)) in
    match n with
    | Zpos p => SF2Prim (SFdiv prec emax (S754_finite s p 0) (Z2SF 10))
    | _ => SF2Prim (S754_zero s)
    end
  | _ => x
  end.

Definition is_ascii_digit (c : N) : bool := ((48 <=? c) && (c <=? 57))%N.

Fixpoint digits_value (acc : Z) (l : str) : option Z :=
  match l with
  | [] => Some acc
  | c :: t =>
    if is_ascii_digit c then digits_value (10 * acc + (Z.of_N c - 48)) t
    else None
  end.

(** The default of [sys.get_int_max_str_digits()] (CPython 3.11 and
    later). *)
Definition int_max_str_digits : Z := 4300.

(** [int(s)] for a string of decimal digits. *)
Definition int_of_str (s : str) : res Z :=
  match s with
  | [] => Raise ValueError
  | _ =>
    match digits_value 0 s with
    | Some n => if int_max_str_digits <? len s then Raise ValueError else Ok n
    | None => Raise ValueError
    end
  end.

Fixpoint split_dot (s : str) : str * option str :=
  match s with
  | [] => ([], None)
  | c :: t =>
    if (c =? 46)%N then ([], Some t)
    else let '(a, b) := split_dot t in (c :: a, b)
  end.

(** [float(s)] for a string of decimal digits and dots: the correctly
    rounded value of the decimal numeral, [ValueError] when [s] is not
    one. *)
Definition float_of_str (s : str) : res float :=
  let '(ip, rest) := split_dot s in
  let fp := match rest with Some f => f | None => [] end in
  match ip ++ fp with
  | [] => Raise ValueError
  | ds =>
    match digits_value 0 ds with
    | Some m =>
      Ok (SF2Prim (SFdiv prec emax (Z2SF m) (Z2SF (10 ^ len fp))))
    | None => Raise ValueError
    end
  end.

End Py.
Import Py.

Declare Scope py_scope.
Delimit Scope py_scope with py.
Notation "x <- m ;; k" := (rbind m (fun x => k))
  (at level 100, m at next level, right associativity) : py_scope.

(* ================================================================== *)
(** * tokenizer.py *)
(* ================================================================== *)

Module Tokenizer.

(** The [tiktoken] encoder is an external library: an encoding is any
    function from text to a list of token ids. *)
Record Encoding : Type := { encode : str -> list N }.

(** The process state of the module: the cached [_encoder]. *)
Definition state : Type := option Encoding.

(** [get_encoder()].  [tiktoken] is [Some enc] when the package can be
    imported and [None] when the import fails. *)
Definition get_encoder (tiktoken : option Encoding) (_encoder : state)
  : option Encoding * state :=
  match _encoder with
  | None =>
    match tiktoken with
    | Some enc => (Some enc, Some enc)
    | None => (None, None)
    end
  | Some enc => (Some enc, Some enc)
  end.

(** [estimate_tokens(text)]; [None] is Python's [None]. *)
Definition estimate_tokens (tiktoken : option Encoding) (_encoder : state)
  (text : option str) : Z * state :=
  match text with
  | None => (0, _encoder)
  | Some [] => (0, _encoder)
  | Some t =>
    let '(encoder, st) := get_encoder tiktoken _encoder in
    match encoder with
    | Some enc => (len (encode enc t), st)
    | None => (len t / 4, st)
    end
  end.

Definition MODEL_CONTEXT_WINDOWS : dict Z :=
  Eval vm_compute in
  [ (py "claude-4.5-opus", 176000);
    (py "claude-4.5-sonnet", 176000);
    (py "claude-4-opus", 176000);
    (py "claude-4-sonnet", 176000);
    (py "claude-3.5-sonnet", 176000);
    (py "claude-3-opus", 176000);
    (py "claude-3-sonnet", 176000);
    (py "claude-3-haiku", 176000);
    (py "gpt-4o", 128000);
    (py "gpt-4-turbo", 128000);
    (py "gpt-4", 8192);
    (py "gpt-3.5-turbo", 16385);
    (py "gemini-2.5-pro", 1000000);
    (py "gemini-2.5-flash", 1000000);
    (py "gemini-1.5-pro", 2000000);
    (py "gemini-1.5-flash", 1000000);
    (py "default", 176000) ].

Definition k_default : str := Eval vm_compute in py "default".

Definition k_gpt_4o : str := Eval vm_compute in py "gpt-4o".
Definition k_gpt_4 : str := Eval vm_compute in py "gpt-4".

(** The eight keys listed before ["gpt-4o"]. *)
Definition claude_keys : list str :=
  Eval vm_compute in map fst (firstn 8 MODEL_CONTEXT_WINDOWS).

Definition contains_claude_key (l : str) : bool :=
  existsb (fun k => str_in k l) claude_keys.

(** The loop [for key, window in MODEL_CONTEXT_WINDOWS.items()]. *)
Fixpoint partial_match (model_lower : str) (items : dict Z) : option Z :=
  match items with
  | [] => None
  | (key, window) :: rest =>
    if negb (str_eqb key k_default) && str_in key model_lower
    then Some window
    else partial_match model_lower rest
  end.

Definition get_context_window (model : option str) : res Z :=
  match model with
  | None => getitem MODEL_CONTEXT_WINDOWS k_default
  | Some [] => getitem MODEL_CONTEXT_WINDOWS k_default
  | Some m =>
    let model_lower := lower m in
    if dict_mem MODEL_CONTEXT_WINDOWS model_lower
    then getitem MODEL_CONTEXT_WINDOWS model_lower
    else
      match partial_match model_lower MODEL_CONTEXT_WINDOWS with
      | Some window => Ok window
      | None => getitem MODEL_CONTEXT_WINDOWS k_default
      end
  end.

Definition calculate_context_percentage (tokens context_window : Z)
  : res float :=
  if context_window <=? 0 then Ok 0%float
  else
    (q <- int_truediv tokens context_window ;;
     let percentage := PrimFloat.mul q 100 in
     Ok (fmin percentage 100))%py.

(** The dictionary returned by [calculate_context_metrics]. *)
Record Metrics : Type := {
  used_percentage : float;
  remaining_percentage : float;
  context_window_size : Z;
  estimated_tokens : Z
}.

(** The body of [calculate_context_metrics] once the window is known. *)
Definition metrics_for_window (tokens context_window : Z) : res Metrics :=
  (used <- calculate_context_percentage tokens context_window ;;
   Ok {| used_percentage := round1 used;
         remaining_percentage := round1 (PrimFloat.sub 100 used);
         context_window_size := context_window;
         estimated_tokens := tokens |})%py.

Definition calculate_context_metrics (tokens : Z) (model : option str)
  : res Metrics :=
  (context_window <- get_context_window model ;;
   metrics_for_window tokens context_window)%py.

Definition THINKING_MULTIPLIERS : dict float :=
  Eval vm_compute in
  [ (py "high-thinking", 5%float);
    (py "thinking", 3%float);
    (py "max", 2%float) ].

(** The loop [for mode, multiplier in THINKING_MULTIPLIERS.items()]. *)
Fixpoint thinking_match (model_lower : str) (items : dict float)
  : option float :=
  match items with
  | [] => None
  | (mode, multiplier) :: rest =>
    if str_in mode model_lower then Some multiplier
    else thinking_match model_lower rest
  end.

Definition get_thinking_multiplier (model : option str) : float :=
  match model with
  | None => 1%float
  | Some [] => 1%float
  | Some m =>
    match thinking_match (lower m) THINKING_MULTIPLIERS with
    | Some multiplier => multiplier
    | None => 1%float
    end
  end.

Definition k_high_thinking : str := Eval vm_compute in py "high-thinking".
Definition k_thinking : str := Eval vm_compute in py "thinking".
Definition k_max : str := Eval vm_compute in py "max".

End Tokenizer.

(* ================================================================== *)
(** * calibration.py *)
(* ================================================================== *)

Module Calibration.

(** A session record: a dictionary whose keys are all optional. *)
Record Session : Type := {
  factor : option float;
  updated_at : option float;
  last_estimate : option Z;
  estimate_time : option float;
  last_actual : option Z;
  calibrated_at : option float
}.

Definition empty_session : Session :=
  {| factor := None; updated_at := None; last_estimate := None;
     estimate_time := None; last_actual := None; calibrated_at := None |}.

Definition is_some {A : Type} (o : option A) : bool :=
  match o with
  | Some _ => true
  | None => false
  end.

(** Truth value of a session dictionary: it has at least one key. *)
Definition session_truthy (s : Session) : bool :=
  is_some (factor s) || is_some (updated_at s) || is_some (last_estimate s)
  || is_some (estimate_time s) || is_some (last_actual s)
  || is_some (calibrated_at s).

(** The dictionary kept in [_calibration_cache]; [_load_calibration] always
    gives it both keys. *)
Record Data : Type := {
  sessions : dict Session;
  global_factor : float
}.

(** What [CALIBRATION_PATH] holds when it can be read as a JSON object: each
    of the two keys may be missing. *)
Record FileData : Type := {
  file_sessions : option (dict Session);
  file_global_factor : option float
}.

(** The module's globals and its environment: the cache, the calibration
    file ([None] when missing or unreadable), whether the file can be
    written, and the readings [time.time()] will return. *)
Record World : Type := {
  _calibration_cache : option Data;
  _cache_loaded : bool;
  disk : option FileData;
  disk_writable : bool;
  clock : nat -> float;
  ticks : nat
}.

Definition with_cache (w : World) (c : option Data) (l : bool) : World :=
  {| _calibration_cache := c; _cache_loaded := l; disk := disk w;
     disk_writable := disk_writable w; clock := clock w; ticks := ticks w |}.

Definition with_disk (w : World) (d : option FileData) : World :=
  {| _calibration_cache := _calibration_cache w;
     _cache_loaded := _cache_loaded w; disk := d;
     disk_writable := disk_writable w; clock := clock w; ticks := ticks w |}.

Definition with_ticks (w : World) (n : nat) : World :=
  {| _calibration_cache := _calibration_cache w;
     _cache_loaded := _cache_loaded w; disk := disk w;
     disk_writable := disk_writable w; clock := clock w; ticks := n |}.

(** Computations that read and write the world and may raise. *)
Definition M (A : Type) : Type := World -> res A * World.

Definition ret {A : Type} (a : A) : M A := fun w => (Ok a, w).

Definition bind {A B : Type} (m : M A) (f : A -> M B) : M B :=
  fun w =>
    match m w with
    | (Ok a, w') => f a w'
    | (Raise e, w') => (Raise e, w')
    end.

Definition lift {A : Type} (r : res A) : M A := fun w => (r, w).

Declare Scope cal_scope.
Delimit Scope cal_scope with cal.
Notation "x <- m ;; k" := (bind m (fun x => k))
  (at level 100, m at next level, right associativity) : cal_scope.
Notation "m ;;; k" := (bind m (fun _ => k))
  (at level 100, right associativity) : cal_scope.
Local Open Scope cal_scope.

(** [time.time()] *)
Definition time_time : M float :=
  fun w => (Ok (clock w (ticks w)), with_ticks w (S (ticks w))).

Definition default_data : Data :=
  {| sessions := []; global_factor := 1 |}.

(** [_calibration_cache.update(data)] *)
Definition update (d : Data) (f : FileData) : Data :=
  {| sessions :=
       match file_sessions f with Some s => s | None => sessions d end;
     global_factor :=
       match file_global_factor f with
       | Some g => g
       | None => global_factor d
       end |}.

Definition _load_calibration : M Data :=
  fun w =>
    match _cache_loaded w, _calibration_cache w with
    | true, Some d => (Ok d, w)
    | _, _ =>
      let d :=
        match disk w with
        | Some f => update default_data f
        | None => default_data
        end in
      (Ok d, with_cache w (Some d) true)
    end.

Definition dump (d : Data) : FileData :=
  {| file_sessions := Some (sessions d);
     file_global_factor := Some (global_factor d) |}.

Definition _save_calibration : M bool :=
  fun w =>
    if disk_writable w
    then (Ok true, with_disk w (option_map dump (_calibration_cache w)))
    else (Ok false, w).

(** An in-place mutation of the dictionary returned by
    [_load_calibration], which is the cache itself. *)
Definition mutate (f : Data -> Data) : M unit :=
  fun w =>
    (Ok tt, with_cache w (option_map f (_calibration_cache w))
                       (_cache_loaded w)).

Definition set_sessions (ss : dict Session) (d : Data) : Data :=
  {| sessions := ss; global_factor := global_factor d |}.

Definition set_global_factor (g : float) (d : Data) : Data :=
  {| sessions := sessions d; global_factor := g |}.

(** [data["sessions"][session_id] = s] *)
Definition put_session (session_id : str) (s : Session) (d : Data) : Data :=
  set_sessions (dict_set (sessions d) session_id s) d.

(** The cached dictionary as it is now. *)
Definition current : M Data :=
  fun w =>
    match _calibration_cache w with
    | Some d => (Ok d, w)
    | None => (Ok default_data, w)
    end.

(** [data["sessions"][session_id][key] = value], with [upd] setting the
    key. *)
Definition set_field (session_id : str) (upd : Session -> Session) : M unit :=
  d <- current ;;
  s <- lift (getitem (sessions d) session_id) ;;
  mutate (put_session session_id (upd s)).

Definition get_factor (session_id : str) : M float :=
  data <- _load_calibration ;;
  match dict_get (sessions data) session_id with
  | Some session_data =>
    if session_truthy session_data && is_some (factor session_data)
    then lift (match factor session_data with
               | Some f => Ok f
               | None => Raise KeyError
               end)
    else ret 1%float
  | None => ret 1%float
  end.

(** [[s.get("factor", 1.0) for s in values
      if s.get("updated_at", 0) > time.time() - 86400]] *)
Fixpoint recent_factors (values : list Session) : M (list float) :=
  match values with
  | [] => ret []
  | s :: rest =>
    now <- time_time ;;
    let u := match updated_at s with Some u => u | None => 0%float end in
    let f := match factor s with Some f => f | None => 1%float end in
    tl <- recent_factors rest ;;
    ret (if PrimFloat.ltb (PrimFloat.sub now 86400) u then f :: tl else tl)
  end.

(** [sum(l)]: additions from the left, starting at [0] (CPython 3.12 and
    later compensate the rounding errors of the additions, which can change
    the last bit of the result; the sum only feeds [global_factor]). *)
Definition fsum (l : list float) : float :=
  fold_left PrimFloat.add l 0%float.

Definition set_factor (session_id : str) (factor0 : float) : M unit :=
  _load_calibration ;;;
  let factor1 := fmax 0.5 (fmin 2 factor0) in
  now <- time_time ;;
  mutate (put_session session_id
            {| factor := Some factor1; updated_at := Some now;
               last_estimate := None; estimate_time := None;
               last_actual := None; calibrated_at := None |}) ;;;
  data <- current ;;
  recent <- recent_factors (map snd (sessions data)) ;;
  match recent with
  | [] => ret tt
  | _ =>
    mutate (set_global_factor
              (PrimFloat.div (fsum recent)
                 (float_of_int (Z.of_nat (List.length recent)))))
  end ;;;
  _save_calibration ;;;
  ret tt.

Definition get_last_estimate (session_id : str) : M (option Z) :=
  data <- _load_calibration ;;
  match dict_get (sessions data) session_id with
  | Some session_data =>
    if session_truthy session_data then ret (last_estimate session_data)
    else ret None
  | None => ret None
  end.

Definition set_last_estimate (session_id : str) (tokens : Z) : M unit :=
  data <- _load_calibration ;;
  (if dict_mem (sessions data) session_id then ret tt
   else mutate (put_session session_id empty_session)) ;;;
  set_field session_id
    (fun s => {| factor := factor s; updated_at := updated_at s;
                 last_estimate := Some tokens;
                 estimate_time := estimate_time s;
                 last_actual := last_actual s;
                 calibrated_at := calibrated_at s |}) ;;;
  now <- time_time ;;
  set_field session_id
    (fun s => {| factor := factor s; updated_at := updated_at s;
                 last_estimate := last_estimate s;
                 estimate_time := Some now;
                 last_actual := last_actual s;
                 calibrated_at := calibrated_at s |}) ;;;
  _save_calibration ;;;
  ret tt.

Definition calibrate_from_actual (session_id : str) (actual_tokens : Z)
  : M (option float) :=
  estimated <- get_last_estimate session_id ;;
  match estimated with
  | None => ret None
  | Some est =>
    if (est =? 0) || (est <=? 0) then ret None
    else
      factor0 <- lift (int_truediv actual_tokens est) ;;
      set_factor session_id factor0 ;;;
      data <- _load_calibration ;;
      (if dict_mem (sessions data) session_id then
         set_field session_id
           (fun s => {| factor := factor s; updated_at := updated_at s;
                        last_estimate := last_estimate s;
                        estimate_time := estimate_time s;
                        last_actual := Some actual_tokens;
                        calibrated_at := calibrated_at s |}) ;;;
         now <- time_time ;;
         set_field session_id
           (fun s => {| factor := factor s; updated_at := updated_at s;
                        last_estimate := last_estimate s;
                        estimate_time := estimate_time s;
                        last_actual := last_actual s;
                        calibrated_at := Some now |}) ;;;
         _save_calibration ;;;
         ret tt
       else ret tt) ;;;
      ret (Some factor0)
  end.

Definition clear_session (session_id : str) : M unit :=
  data <- _load_calibration ;;
  if dict_mem (sessions data) session_id then
    mutate (fun d => set_sessions (dict_del (sessions d) session_id) d) ;;;
    _save_calibration ;;;
    ret tt
  else ret tt.

(** The dictionary returned by [get_calibration_stats]. *)
Record Stats : Type := {
  session_count : Z;
  stats_global_factor : float;
  calibrated_sessions : Z
}.

Definition get_calibration_stats : M Stats :=
  data <- _load_calibration ;;
  ret {| session_count := Z.of_nat (List.length (sessions data));
         stats_global_factor := global_factor data;
         calibrated_sessions :=
           Z.of_nat (List.length
                       (filter (fun kv => is_some (factor (snd kv)))
                               (sessions data))) |}.

(** The clamp of [set_factor]. *)
Definition clamp (f : float) : float := fmax 0.5 (fmin 2 f).

(** ** Histories of calls *)

(** One event in the life of the store: a call of a public function, or the
    start of a new process (every hook firing is one), which forgets the
    cache and keeps the file. *)
Inductive call : Type :=
| GetFactor (session_id : str)
| SetFactor (session_id : str) (f : float)
| GetLastEstimate (session_id : str)
| SetLastEstimate (session_id : str) (tokens : Z)
| CalibrateFromActual (session_id : str) (actual_tokens : Z)
| ClearSession (session_id : str)
| GetCalibrationStats
| NewProcess.

Definition run_call (c : call) (w : World) : World :=
  match c with
  | GetFactor s => snd (get_factor s w)
  | SetFactor s f => snd (set_factor s f w)
  | GetLastEstimate s => snd (get_last_estimate s w)
  | SetLastEstimate s t => snd (set_last_estimate s t w)
  | CalibrateFromActual s a => snd (calibrate_from_actual s a w)
  | ClearSession s => snd (clear_session s w)
  | GetCalibrationStats => snd (get_calibration_stats w)
  | NewProcess => with_cache w None false
  end.

Definition run_calls (cs : list call) (w : World) : World :=
  fold_left (fun w c => run_call c w) cs w.

(** Whether a call writes a factor for [session_id]. *)
Definition sets_factor_of (session_id : str) (c : call) : bool :=
  match c with
  | SetFactor s _ => str_eqb s session_id
  | CalibrateFromActual s _ => str_eqb s session_id
  | _ => false
  end.

(** Whether a call can change what the store holds for [session_id]: a
    call that names the session, or a restart of the process. *)
Definition touches (session_id : str) (c : call) : bool :=
  match c with
  | GetFactor _ | GetLastEstimate _ | GetCalibrationStats => false
  | SetFactor s _ | SetLastEstimate s _ | CalibrateFromActual s _
  | ClearSession s => str_eqb s session_id
  | NewProcess => true
  end.

(** A fresh process with no calibration file. *)
Definition fresh (clk : nat -> float) : World :=
  {| _calibration_cache := None; _cache_loaded := false; disk := None;
     disk_writable := true; clock := clk; ticks := 0 |}.

(** The store as the next call will see it. *)
Definition view (w : World) : Data :=
  match fst (_load_calibration w) with
  | Ok d => d
  | Raise _ => default_data
  end.

(** The factor recorded for a session, if any. *)
Definition factor_at (session_id : str) (ss : dict Session) : option float :=
  match dict_get ss session_id with
  | Some r => factor r
  | None => None
  end.

(** The last estimate recorded for a session, if any. *)
Definition last_estimate_at (session_id : str) (ss : dict Session)
  : option Z :=
  match dict_get ss session_id with
  | Some r => last_estimate r
  | None => None
  end.

(** The calibration file records no factor for the session. *)
Definition file_no_factor (session_id : str) (dk : option FileData) : Prop :=
  match dk with
  | Some f =>
    match file_sessions f with
    | Some ss => factor_at session_id ss = None
    | None => True
    end
  | None => True
  end.

(** No factor is recorded for the session, neither in the store as the next
    call will see it nor in the calibration file. *)
Definition no_factor (session_id : str) (w : World) : Prop :=
  factor_at session_id (sessions (view w)) = None
  /\ file_no_factor session_id (disk w).

(** A clock that advances by one second at every reading. *)
Definition tick_clock (n : nat) : float :=
  PrimFloat.add 1700000000 (float_of_int (Z.of_nat n)).

(** A world whose cache is loaded with [d]. *)
Definition loaded (d : Data) (dk : option FileData) (wr : bool)
  (clk : nat -> float) (n : nat) : World :=
  {| _calibration_cache := Some d; _cache_loaded := true; disk := dk;
     disk_writable := wr; clock := clk; ticks := n |}.

(** The file after [_save_calibration] with [d] in the cache. *)
Definition saved (dk : option FileData) (wr : bool) (d : Data)
  : option FileData :=
  if wr then Some (dump d) else dk.

(** The record written by [set_factor]. *)
Definition factor_record (f now : float) : Session :=
  {| factor := Some f; updated_at := Some now; last_estimate := None;
     estimate_time := None; last_actual := None; calibrated_at := None |}.

(** A record after [set_last_estimate] has written its two keys. *)
Definition with_estimate (r : Session) (tokens : Z) (now : float) : Session :=
  {| factor := factor r; updated_at := updated_at r;
     last_estimate := Some tokens; estimate_time := Some now;
     last_actual := last_actual r; calibrated_at := calibrated_at r |}.

(** A record after [calibrate_from_actual] has written its two keys. *)
Definition with_actual (r : Session) (actual : Z) (now : float) : Session :=
  {| factor := factor r; updated_at := updated_at r;
     last_estimate := last_estimate r; estimate_time := estimate_time r;
     last_actual := Some actual; calibrated_at := Some now |}.

(** The record of a session, the empty dictionary when it has none. *)
Definition record_of (session_id : str) (ss : dict Session) : Session :=
  match dict_get ss session_id with
  | Some r => r
  | None => empty_session
  end.

(** The world in which a call continues once the cache is loaded. *)
Definition normal (w : World) : World :=
  loaded (view w) (disk w) (disk_writable w) (clock w) (ticks w).

End Calibration.

(* ================================================================== *)
(** * skills.py *)
(* ================================================================== *)

Module SkillsPy.

Definition TOKENS_PER_SKILL_METADATA : Z := 50.
Definition SYSTEM_PROMPT_TOKENS : Z := 2500.

(** The process state of the module: the cached [_skills_cache]. *)
Definition cache : Type := option (Z * Z).

(** [estimate_skill_tokens()].  The file system is outside the program:
    [found] is the list of paths [find_skill_files()] returns when it is
    called. *)
Definition estimate_skill_tokens (found : list str) (_skills_cache : cache)
  : (Z * Z) * cache :=
  match _skills_cache with
  | Some r => (r, _skills_cache)
  | None =>
    let skill_count := Z.of_nat (List.length found) in
    let estimated_tokens := skill_count * TOKENS_PER_SKILL_METADATA in
    ((skill_count, estimated_tokens), Some (skill_count, estimated_tokens))
  end.

(** [clear_cache()] *)
Definition clear_cache (_skills_cache : cache) : cache := None.

(** The dictionary returned by [get_initial_context_estimate]. *)
Record InitialEstimate : Type := {
  skill_count : Z;
  skill_tokens : Z;
  system_prompt_tokens : Z;
  total_initial_tokens : Z;
  used_percentage : float;
  remaining_percentage : float;
  context_window_size : Z
}.

Definition get_initial_context_estimate (found : list str)
  (_skills_cache : cache) (model : option str)
  : res InitialEstimate * cache :=
  let '((count, toks), c) := estimate_skill_tokens found _skills_cache in
  let total := toks + SYSTEM_PROMPT_TOKENS in
  ((context_window <- Tokenizer.get_context_window model ;;
    used <- Tokenizer.calculate_context_percentage total context_window ;;
    Ok {| skill_count := count;
          skill_tokens := toks;
          system_prompt_tokens := SYSTEM_PROMPT_TOKENS;
          total_initial_tokens := total;
          used_percentage := round1 used;
          remaining_percentage := round1 (PrimFloat.sub 100 used);
          context_window_size := context_window |})%py,
   c).

End SkillsPy.

(* ================================================================== *)
(** * The fragment of [re] used by the parser *)
(* ================================================================== *)

Module Re.

(** Character classes. *)
Inductive cls : Type :=
| CWord                 (* \w *)
| CDigit                (* \d *)
| CSpace                (* \s *)
| COneOf (l : str)      (* the listed characters *)
| COr (a b : cls).      (* union, as inside [...] *)

Definition is_word (c : N) : bool :=
  (((48 <=? c) && (c <=? 57)) || ((65 <=? c) && (c <=? 90))
   || ((97 <=? c) && (c <=? 122)) || (c =? 95))%N.

Fixpoint cls_mem (k : cls) (c : N) : bool :=
  match k with
  | CWord => is_word c
  | CDigit => is_ascii_digit c
  | CSpace => is_space c
  | COneOf l => existsb (N.eqb c) l
  | COr a b => cls_mem a c || cls_mem b c
  end.

(** Patterns: one character of a class, sequence, greedy option, greedy
    repetition of a class, and numbered capture groups. *)
Inductive regex : Type :=
| Chr (k : cls)
| Eps
| Seq (r1 r2 : regex)
| Opt (r : regex)
| Star (k : cls)
| Group (n : nat) (r : regex).

Definition Plus (k : cls) : regex := Seq (Chr k) (Star k).

Definition cat (l : list regex) : regex := fold_right Seq Eps l.

Definition Lit (s : str) : regex := cat (map (fun c => Chr (COneOf [c])) s).

(** Captured groups, most recent first. *)
Definition groups : Type := list (nat * str).

Fixpoint group_get (g : groups) (n : nat) : option str :=
  match g with
  | [] => None
  | (m, s) :: t => if Nat.eqb m n then Some s else group_get t n
  end.

Section Matcher.
Context {A : Type}.

(** [k*]: the longest run first, shorter ones on backtracking. *)
Fixpoint star (k : cls) (s : str) (cont : str -> option A) : option A :=
  match s with
  | c :: t =>
    if cls_mem k c then
      match star k t cont with
      | Some a => Some a
      | None => cont s
      end
    else cont s
  | [] => cont []
  end.

(** Backtracking matcher: [cont] is what remains to be matched. *)
Fixpoint rmatch (r : regex) (s : str) (g : groups)
  (cont : str -> groups -> option A) : option A :=
  match r with
  | Chr k =>
    match s with
    | c :: t => if cls_mem k c then cont t g else None
    | [] => None
    end
  | Eps => cont s g
  | Seq r1 r2 => rmatch r1 s g (fun s' g' => rmatch r2 s' g' cont)
  | Opt r1 =>
    match rmatch r1 s g cont with
    | Some a => Some a
    | None => cont s g
    end
  | Star k => star k s (fun s' => cont s' g)
  | Group n r1 =>
    rmatch r1 s g
      (fun s' g' =>
         cont s' ((n, firstn (List.length s - List.length s') s) :: g'))
  end.

End Matcher.



(** A match at the head of [s]: its length and groups. *)
Definition match_at (r : regex) (s : str) : option (nat * groups) :=
  rmatch r s []
    (fun s' g => Some ((List.length s - List.length s')%nat, g)).

(** A match object. *)
Record Match : Type := {
  m_start : Z;
  m_end : Z;
  m_groups : groups
}.

(** [m.group(n)] for a group that took part in the match. *)
Definition group (m : Match) (n : nat) : str :=
  match group_get (m_groups m) n with
  | Some s => s
  | None => []
  end.

(** [m.group(n)], [None] for a group that did not take part. *)
Definition group_opt (m : Match) (n : nat) : option str :=
  group_get (m_groups m) n.

(** [re.search]: the match at the leftmost position that has one; the head
    of [s] has index [i]. *)
Fixpoint search_from (r : regex) (s : str) (i : Z) : option Match :=
  match match_at r s with
  | Some (n, g) =>
    Some {| m_start := i; m_end := i + Z.of_nat n; m_groups := g |}
  | None =>
    match s with
    | [] => None
    | _ :: t => search_from r t (i + 1)
    end
  end.

Definition search (r : regex) (s : str) : option Match := search_from r s 0.

(** [finditer]: successive matches from the left, without overlap; [skip]
    counts the characters still covered by the previous match. *)
Fixpoint finditer_from (r : regex) (s : str) (skip : nat) (i : Z)
  {struct s} : list Match :=
  match skip with
  | S n =>
    match s with
    | [] => []
    | _ :: t => finditer_from r t n (i + 1)
    end
  | O =>
    match match_at r s with
    | Some (n, g) =>
      {| m_start := i; m_end := i + Z.of_nat n; m_groups := g |}
        :: match s with
           | [] => []
           | _ :: t => finditer_from r t (n - 1) (i + 1)
           end
    | None =>
      match s with
      | [] => []
      | _ :: t => finditer_from r t 0 (i + 1)
      end
    end
  end.

Definition finditer (r : regex) (s : str) : list Match :=
  finditer_from r s 0 0.

End Re.

(* ================================================================== *)
(** * context_parser.py *)
(* ================================================================== *)

Module ContextParser.
Import Re.

Record ContextItem : Type := {
  item_name : str;
  item_tokens : Z
}.

Record ContextCategory : Type := {
  name : str;
  tokens : Z;
  percentage : float;
  items : list ContextItem
}.

Record ContextBreakdown : Type := {
  model : str;
  total_tokens : Z;
  max_tokens : Z;
  used_percentage : float;
  system_prompt : option ContextCategory;
  system_tools : option ContextCategory;
  mcp_tools : option ContextCategory;
  custom_agents : option ContextCategory;
  memory_files : option ContextCategory;
  skills : option ContextCategory;
  messages : option ContextCategory;
  free_space : option ContextCategory;
  autocompact_buffer : option ContextCategory;
  raw_output : str
}.

(** The nine category fields. *)
Inductive slot : Type :=
| SystemPrompt | SystemTools | McpTools | CustomAgents | MemoryFiles
| Skills | Messages | FreeSpace | AutocompactBuffer.

Definition get_slot (b : ContextBreakdown) (f : slot)
  : option ContextCategory :=
  match f with
  | SystemPrompt => system_prompt b
  | SystemTools => system_tools b
  | McpTools => mcp_tools b
  | CustomAgents => custom_agents b
  | MemoryFiles => memory_files b
  | Skills => skills b
  | Messages => messages b
  | FreeSpace => free_space b
  | AutocompactBuffer => autocompact_buffer b
  end.

Definition slot_eqb (a b : slot) : bool :=
  match a, b with
  | SystemPrompt, SystemPrompt | SystemTools, SystemTools
  | McpTools, McpTools | CustomAgents, CustomAgents
  | MemoryFiles, MemoryFiles | Skills, Skills | Messages, Messages
  | FreeSpace, FreeSpace | AutocompactBuffer, AutocompactBuffer => true
  | _, _ => false
  end.

(** [breakdown.<f> = c] *)
Definition set_slot (b : ContextBreakdown) (f : slot)
  (c : option ContextCategory) : ContextBreakdown :=
  let pick g := if slot_eqb f g then c else get_slot b g in
  {| model := model b; total_tokens := total_tokens b;
     max_tokens := max_tokens b; used_percentage := used_percentage b;
     system_prompt := pick SystemPrompt;
     system_tools := pick SystemTools;
     mcp_tools := pick McpTools;
     custom_agents := pick CustomAgents;
     memory_files := pick MemoryFiles;
     skills := pick Skills;
     messages := pick Messages;
     free_space := pick FreeSpace;
     autocompact_buffer := pick AutocompactBuffer;
     raw_output := raw_output b |}.

Definition set_header (b : ContextBreakdown) (m : str) (total maxt : Z)
  (used : float) : ContextBreakdown :=
  {| model := m; total_tokens := total; max_tokens := maxt;
     used_percentage := used;
     system_prompt := system_prompt b; system_tools := system_tools b;
     mcp_tools := mcp_tools b; custom_agents := custom_agents b;
     memory_files := memory_files b; skills := skills b;
     messages := messages b; free_space := free_space b;
     autocompact_buffer := autocompact_buffer b;
     raw_output := raw_output b |}.

Definition ch (s : string) : N := hd 0%N (py s).

Definition word_or_dash : cls := COr CWord (COneOf [ch "-"]).
Definition digit_or_dot : cls := COr CDigit (COneOf [ch "."]).

(** [([\w-]+)\s*·\s*([\d.]+)k?\s*/\s*([\d.]+)k?\s*tokens\s*\((\d+(?:\.\d+)?)\s*%\)];
    group 0 is the whole match. *)
Definition header_pattern : regex :=
  Eval vm_compute in
  Group 0 (cat [
    Group 1 (Plus word_or_dash);
    Star CSpace; Chr (COneOf [ch "·"]); Star CSpace;
    Group 2 (Plus digit_or_dot); Opt (Chr (COneOf [ch "k"]));
    Star CSpace; Chr (COneOf [ch "/"]); Star CSpace;
    Group 3 (Plus digit_or_dot); Opt (Chr (COneOf [ch "k"]));
    Star CSpace; Lit (py "tokens"); Star CSpace;
    Chr (COneOf [ch "("]);
    Group 4 (cat [Plus CDigit;
                  Opt (cat [Chr (COneOf [ch "."]); Plus CDigit])]);
    Star CSpace; Chr (COneOf [ch "%"]); Chr (COneOf [ch ")"]) ]).

(** [[⛁⛀⛶⛝]\s+([\w\s]+):\s*([\d.]+)(k)?\s*tokens\s*\(([\d.]+)\s*%\)] *)
Definition category_pattern : regex :=
  Eval vm_compute in
  Group 0 (cat [
    Chr (COneOf (py "⛁⛀⛶⛝")); Plus CSpace;
    Group 1 (Plus (COr CWord CSpace)); Chr (COneOf [ch ":"]);
    Star CSpace; Group 2 (Plus digit_or_dot);
    Opt (Group 3 (Chr (COneOf [ch "k"])));
    Star CSpace; Lit (py "tokens"); Star CSpace;
    Chr (COneOf [ch "("]); Group 4 (Plus digit_or_dot);
    Star CSpace; Chr (COneOf [ch "%"]); Chr (COneOf [ch ")"]) ]).

(** What follows the tree marker in [item_pattern]. *)
Definition item_tail : regex :=
  Eval vm_compute in
  cat [ Star CSpace;
        Group 1 (Plus (COr CWord (COneOf (py "_-"))));
        Chr (COneOf [ch ":"]); Star CSpace;
        Group 2 (Plus CDigit); Star CSpace; Lit (py "tokens") ].

Definition tree_marker : cls := Eval vm_compute in COneOf (py "└├─").

(** [[└├─]\s*([\w_-]+):\s*(\d+)\s*tokens] *)
Definition item_pattern : regex :=
  Group 0 (Seq (Chr tree_marker) item_tail).

Definition s_context_usage : str := Eval vm_compute in py "Context Usage".
Definition s_k : str := Eval vm_compute in py "k".
Definition s_mcp_tools : str := Eval vm_compute in py "MCP tools".
Definition s_custom_agents : str := Eval vm_compute in py "Custom agents".
Definition s_memory_files : str := Eval vm_compute in py "Memory files".
Definition s_skills : str := Eval vm_compute in py "Skills".
Definition s_dot_suffix : str := Eval vm_compute in py " ·".

(** The [if]/[elif] chain on the lowercased label. *)
Definition classify (name_lower : str) : option slot :=
  if str_in (py "system prompt") name_lower then Some SystemPrompt
  else if str_in (py "system tools") name_lower then Some SystemTools
  else if str_in (py "mcp tools") name_lower then Some McpTools
  else if str_in (py "custom agents") name_lower
          || str_in (py "agents") name_lower then Some CustomAgents
  else if str_in (py "memory") name_lower then Some MemoryFiles
  else if str_in (py "skills") name_lower then Some Skills
  else if str_in (py "messages") name_lower then Some Messages
  else if str_in (py "free") name_lower then Some FreeSpace
  else if str_in (py "autocompact") name_lower
          || str_in (py "buffer") name_lower then Some AutocompactBuffer
  else None.

Local Open Scope py_scope.

(** The body of [if header_match:]. *)
Definition parse_header (output : str) (b : ContextBreakdown)
  : res ContextBreakdown :=
  match search header_pattern output with
  | None => Ok b
  | Some header_match =>
    let total_str := group header_match 2 in
    let max_str := group header_match 3 in
    total <-
      (if str_in s_k
            (slice output (m_start header_match) (m_end header_match))
       then (x <- float_of_str total_str ;;
             int_of_float (PrimFloat.mul x 1000))
       else (x <- float_of_str total_str ;;
             int_of_float (PrimFloat.mul x 1000))) ;;
    maxt <- (x <- float_of_str max_str ;;
             int_of_float (PrimFloat.mul x 1000)) ;;
    used <- float_of_str (group header_match 4) ;;
    Ok (set_header b (group header_match 1) total maxt used)
  end.

(** One turn of the loop over [category_pattern.finditer(output)]. *)
Definition parse_category (b : ContextBreakdown) (m : Match)
  : res ContextBreakdown :=
  let name_lower := lower (strip (group m 1)) in
  token_value <- float_of_str (group m 2) ;;
  let has_k_suffix :=
    match group_opt m 3 with
    | Some s => str_eqb s s_k
    | None => false
    end in
  toks <- (if has_k_suffix
           then int_of_float (PrimFloat.mul token_value 1000)
           else int_of_float token_value) ;;
  pct <- float_of_str (group m 4) ;;
  let category :=
    {| name := strip (group m 1); tokens := toks; percentage := pct;
       items := [] |} in
  Ok (match classify name_lower with
      | Some f => set_slot b f (Some category)
      | None => b
      end).

Fixpoint parse_categories (b : ContextBreakdown) (ms : list Match)
  : res ContextBreakdown :=
  match ms with
  | [] => Ok b
  | m :: rest => b' <- parse_category b m ;; parse_categories b' rest
  end.

(** The keys of [sections], in order. *)
Definition section_names : list str :=
  [s_mcp_tools; s_custom_agents; s_memory_files; s_skills].

(** [section_start] after both [find] attempts; [-1] when not found. *)
Definition section_start (output section_name : str) : Z :=
  let p := str_find (section_name ++ s_dot_suffix) output 0 in
  if p =? -1 then str_find section_name output 0 else p.

(** [next_section] after the loop over the other names. *)
Definition next_section (output section_name : str) (start : Z) : Z :=
  fold_left
    (fun next other_name =>
       if negb (str_eqb other_name section_name) then
         let pos := str_find other_name output (start + len section_name) in
         if negb (pos =? -1) && (pos <? next) then pos else next
       else next)
    section_names (len output).

(** The items matched in one section text, in order. *)
Fixpoint parse_items (ms : list Match) : res (list ContextItem) :=
  match ms with
  | [] => Ok []
  | m :: rest =>
    n <- int_of_str (group m 2) ;;
    tl <- parse_items rest ;;
    Ok ({| item_name := group m 1; item_tokens := n |} :: tl)
  end.

Definition append_items (c : ContextCategory) (l : list ContextItem)
  : ContextCategory :=
  {| name := name c; tokens := tokens c; percentage := percentage c;
     items := items c ++ l |}.

(** One turn of the loop over [sections.items()]. *)
Definition parse_section (output section_name : str)
  (category : option ContextCategory) : res (option ContextCategory) :=
  match category with
  | None => Ok None
  | Some c =>
    let start := section_start output section_name in
    if start =? -1 then Ok (Some c)
    else
      let section_text :=
        slice output start (next_section output section_name start) in
      l <- parse_items (finditer item_pattern section_text) ;;
      Ok (Some (append_items c l))
  end.

Definition empty_breakdown (output : str) : ContextBreakdown :=
  {| model := []; total_tokens := 0; max_tokens := 0; used_percentage := 0;
     system_prompt := None; system_tools := None; mcp_tools := None;
     custom_agents := None; memory_files := None; skills := None;
     messages := None; free_space := None; autocompact_buffer := None;
     raw_output := output |}.

(** The breakdown after the header and the category lines, before items. *)
Definition parse_summary (output : str) : res ContextBreakdown :=
  b <- parse_header output (empty_breakdown output) ;;
  parse_categories b (finditer category_pattern output).

Definition parse_context_output (output : str)
  : res (option ContextBreakdown) :=
  if negb (str_in s_context_usage output) then Ok None
  else
    b <- parse_summary output ;;
    mcp <- parse_section output s_mcp_tools (mcp_tools b) ;;
    agents <- parse_section output s_custom_agents (custom_agents b) ;;
    memory <- parse_section output s_memory_files (memory_files b) ;;
    sk <- parse_section output s_skills (skills b) ;;
    Ok (Some (set_slot (set_slot (set_slot (set_slot b McpTools mcp)
                                           CustomAgents agents)
                                 MemoryFiles memory)
                       Skills sk)).

Definition start_markers : list str :=
  Eval vm_compute in [py "Context Usage"; py "⛁ ⛁ ⛁"].

(** The loop over [start_markers]: the greatest last occurrence. *)
Definition last_marker (terminal_output : str) : Z :=
  fold_left
    (fun start_idx marker =>
       let idx := str_rfind marker terminal_output in
       if negb (idx =? -1) && ((start_idx =? -1) || (start_idx <? idx))
       then idx else start_idx)
    start_markers (-1).

Definition find_context_in_terminal (terminal_output : str) : option str :=
  let start_idx := last_marker terminal_output in
  if start_idx =? -1 then None
  else
    let search_end := Z.min (start_idx + 5000) (len terminal_output) in
    let end_idx := search_end in
    let start_idx' := Z.max 0 (start_idx - 200) in
    Some (slice terminal_output start_idx' end_idx).

(** The header fields of a breakdown. *)
Definition header_of (b : ContextBreakdown) : str * Z * Z * float * str :=
  (model b, total_tokens b, max_tokens b, used_percentage b, raw_output b).

(** The five categories that never list items. *)
Definition plain_slots : list slot :=
  [SystemPrompt; SystemTools; Messages; FreeSpace; AutocompactBuffer].

(** The span of a section, [section_start] and [next_section], when the
    section is found. *)
Definition section_window (output section_name : str) : option (Z * Z) :=
  let start := section_start output section_name in
  if start =? -1 then None
  else Some (start, next_section output section_name start).

(** The items read in the span of a section; none when it is not found. *)
Definition window_items (output section_name : str)
  : res (list ContextItem) :=
  match section_window output section_name with
  | None => Ok []
  | Some (a, b) => parse_items (finditer item_pattern (slice output a b))
  end.






(** The result of a parse that returns a breakdown. *)
Definition parsed (output : str) : option ContextBreakdown :=
  match parse_context_output output with
  | Ok (Some b) => Some b
  | _ => None
  end.


(** Reports used below. *)
Definition report_suffix : str := py "Context Usage
claude-sonnet-4-5 · 48k/200k tokens (24%)
⛁ Memory files: 843 tokens (0.4%)".

Definition report_no_suffix : str := py "Context Usage
claude-sonnet-4-5 · 48000/200000 tokens (24%)
⛁ Memory files: 843 tokens (0.4%)".




Definition report_sections : str := py "Context Usage
⛁ MCP tools: 2.2k tokens (1.1%)
⛁ Memory files: 843 tokens (0.4%)
⛁ Skills: 687 tokens (0.3%)
MCP tools · /mcp
└ mcp__deepwiki: 123 tokens
Skills · /skills
└ frontend-design: 67 tokens
├ receiving-code-review:  68  tokens
Memory files · /memory
└ notes: 843 tokens".

(** No category of the breakdown has items. *)
Definition no_items (b : ContextBreakdown) : Prop :=
  forall f c, get_slot b f = Some c -> items c = [].


(** The breakdown of [report_sections] and its skills category. *)
Definition sections_breakdown : ContextBreakdown :=
  Eval vm_compute in
  match parse_context_output report_sections with
  | Ok (Some b) => b
  | _ => empty_breakdown []
  end.


(** The sample report of the module's [__main__] block. *)
Definition sample_output : str := py "
  ⎿  Context Usage
     ⛁ ⛁ ⛁ ⛁ ⛁ ⛁ ⛁ ⛁ ⛁ ⛀   claude-sonnet-4-5-20250929 · 48k/200k tokens (24%)
     ⛁ ⛀ ⛀ ⛀ ⛁ ⛁ ⛁ ⛁ ⛁ ⛁
     ⛁ ⛁ ⛁ ⛁ ⛁ ⛁ ⛁ ⛶ ⛶ ⛶   Estimated usage by category
     ⛶ ⛶ ⛶ ⛶ ⛶ ⛶ ⛶ ⛶ ⛶ ⛶   ⛁ System prompt: 2.5k tokens (1.3%)
     ⛶ ⛶ ⛶ ⛶ ⛶ ⛶ ⛶ ⛶ ⛶ ⛶   ⛁ System tools: 17.2k tokens (8.6%)
     ⛶ ⛶ ⛶ ⛶ ⛶ ⛶ ⛶ ⛶ ⛶ ⛶   ⛁ MCP tools: 2.2k tokens (1.1%)
     ⛶ ⛶ ⛶ ⛶ ⛶ ⛶ ⛶ ⛶ ⛶ ⛶   ⛁ Custom agents: 247 tokens (0.1%)
     ⛶ ⛶ ⛶ ⛶ ⛶ ⛶ ⛶ ⛶ ⛶ ⛶   ⛁ Memory files: 843 tokens (0.4%)
     ⛶ ⛶ ⛶ ⛶ ⛶ ⛶ ⛶ ⛶ ⛶ ⛶   ⛁ Skills: 687 tokens (0.3%)
     ⛶ ⛝ ⛝ ⛝ ⛝ ⛝ ⛝ ⛝ ⛝ ⛝   ⛁ Messages: 25.5k tokens (12.8%)
                           ⛶ Free space: 118k (58.9%)
                           ⛝ Autocompact buffer: 33.0k tokens (16.5%)

     MCP tools · /mcp
     └ mcp__youtube-transcript__get_youtube_transcript: 589 tokens
     └ mcp__youtube-transcript__get_video_info: 318 tokens
     └ mcp__deepwiki__read_wiki_structure: 123 tokens

     Memory files · /memory
     └ CLAUDE.md: 843 tokens

     Skills · /skills
     └ frontend-design: 67 tokens
     └ receiving-code-review: 67 tokens
".

Definition sample_breakdown : ContextBreakdown :=
  Eval vm_compute in
  match parse_context_output sample_output with
  | Ok (Some b) => b
  | _ => empty_breakdown []
  end.

Definition sample_messages : ContextCategory :=
  Eval vm_compute in
  match messages sample_breakdown with
  | Some c => c
  | None => {| name := []; tokens := 0; percentage := 0; items := [] |}
  end.

End ContextParser.

(* ================================================================== *)
(** * Facts about strings and dictionaries *)
(* ================================================================== *)

Lemma str_eqb_eq (a b : str) : str_eqb a b = true <-> a = b.
Proof.
  revert b; induction a as [|x a IH]; intros [|y b]; simpl;
    try (split; [discriminate | congruence]); [tauto|].
  rewrite andb_true_iff, N.eqb_eq, IH.
  split; [intros [-> ->]; reflexivity | intros H; inversion H; auto].
Qed.

Lemma str_eqb_refl (a : str) : str_eqb a a = true.
Proof. apply str_eqb_eq; reflexivity. Qed.

Lemma str_eqb_neq (a b : str) : str_eqb a b = false <-> a <> b.
Proof.
  rewrite <- str_eqb_eq. destruct (str_eqb a b); split; congruence.
Qed.


Lemma startswith_spec (p s : str) :
  startswith p s = true <-> exists post, s = p ++ post.
Proof.
  revert s; induction p as [|x p IH]; intros s; simpl.
  - split; [intros _; exists s; reflexivity | reflexivity].
  - destruct s as [|y s].
    + split; [discriminate | intros [post H]; discriminate].
    + rewrite andb_true_iff, N.eqb_eq, IH. split.
      * intros [-> [post ->]]. exists post; reflexivity.
      * intros [post H]. inversion H; subst. split; eauto.
Qed.

Lemma str_in_spec (sub s : str) :
  str_in sub s = true <-> exists pre post, s = pre ++ sub ++ post.
Proof.
  induction s as [|c s IH]; simpl.
  - rewrite orb_false_r, startswith_spec. split.
    + intros [post H]. exists [], post. exact H.
    + intros [pre [post H]]. destruct pre; simpl in H.
      * exists post; exact H.
      * discriminate.
  - rewrite orb_true_iff, startswith_spec, IH. split.
    + intros [[post H] | [pre [post H]]].
      * exists [], post. exact H.
      * exists (c :: pre), post. simpl. rewrite H. reflexivity.
    + intros [pre [post H]]. destruct pre as [|x pre]; simpl in H.
      * left. exists post; exact H.
      * right. inversion H; subst. exists pre, post; reflexivity.
Qed.

Lemma lower_app (a b : str) : lower (a ++ b) = lower a ++ lower b.
Proof. unfold lower. apply flat_map_app. Qed.

Lemma str_in_lower (k m : str) :
  lower_fixed k -> str_in k m = true -> str_in k (lower m) = true.
Proof.
  intros Hk H. apply str_in_spec in H. destruct H as [pre [post ->]].
  apply str_in_spec. exists (lower pre), (lower post).
  rewrite !lower_app, Hk. reflexivity.
Qed.

Lemma str_in_trans (a b s : str) :
  str_in a b = true -> str_in b s = true -> str_in a s = true.
Proof.
  rewrite !str_in_spec. intros [p1 [q1 ->]] [p2 [q2 ->]].
  exists (p2 ++ p1), (q1 ++ q2). rewrite <- !app_assoc. reflexivity.
Qed.

Lemma len_app (a b : str) : len (a ++ b) = len a + len b.
Proof. unfold len. rewrite length_app. lia. Qed.

Lemma len_nonneg (a : str) : 0 <= len a.
Proof. unfold len. lia. Qed.


Lemma dict_get_key {V : Type} (d : dict V) (k : str) (v : V) :
  dict_get d k = Some v -> In (k, v) d.
Proof.
  induction d as [|[k' v'] d IH]; simpl; [discriminate|].
  destruct (str_eqb k' k) eqn:E.
  - intros H; inversion H; subst. apply str_eqb_eq in E; subst. auto.
  - auto.
Qed.

(* ================================================================== *)
(** * Token estimator and model window registry *)
(* ================================================================== *)

Section TokenizerFacts.
Import Tokenizer.

(** The estimate on the fallback path is a quarter of the length. *)
Lemma estimate_fallback (t : str) :
  fst (estimate_tokens None None (Some t)) = len t / 4.
Proof. destruct t; reflexivity. Qed.


(** The first key of the table, in insertion order, that occurs in the
    lowercased name decides a partial match. *)
Lemma partial_match_first (l : str) (pre post : dict Z) (key : str) (w : Z) :
  (forall k v, In (k, v) pre -> k = k_default \/ str_in k l = false) ->
  key <> k_default -> str_in key l = true ->
  partial_match l (pre ++ (key, w) :: post) = Some w.
Proof.
  intros Hpre Hk Hin. induction pre as [|[k v] pre IH]; simpl.
  - apply str_eqb_neq in Hk. rewrite Hk, Hin. reflexivity.
  - destruct (Hpre k v (or_introl eq_refl)) as [-> | Hf].
    + rewrite str_eqb_refl. simpl. apply IH. intros; eapply Hpre; right; eauto.
    + rewrite Hf, andb_false_r. apply IH. intros; eapply Hpre; right; eauto.
Qed.

Lemma partial_match_none (l : str) (d : dict Z) :
  (forall k v, In (k, v) d -> k = k_default \/ str_in k l = false) ->
  partial_match l d = None.
Proof.
  induction d as [|[k v] d IH]; simpl; intros H; [reflexivity|].
  destruct (H k v (or_introl eq_refl)) as [-> | Hf].
  - rewrite str_eqb_refl. simpl. apply IH. intros; eapply H; right; eauto.
  - rewrite Hf, andb_false_r. apply IH. intros; eapply H; right; eauto.
Qed.

(** How [get_context_window] treats a non-empty name. *)
Lemma get_context_window_nonempty (m : str) :
  m <> [] ->
  get_context_window (Some m) =
    match dict_get MODEL_CONTEXT_WINDOWS (lower m) with
    | Some w => Ok w
    | None =>
      match partial_match (lower m) MODEL_CONTEXT_WINDOWS with
      | Some w => Ok w
      | None => Ok 176000
      end
    end.
Proof.
  intros Hm. destruct m as [|c m]; [congruence|].
  unfold get_context_window, dict_mem, getitem.
  destruct (dict_get MODEL_CONTEXT_WINDOWS (lower (c :: m))); reflexivity.
Qed.

End TokenizerFacts.

Section TokenizerClaims.
Import Tokenizer.




(** C8: a name is resolved by an exact match of its lowercase form in the
    table, otherwise by the first table key (other than ["default"]) that
    occurs in its lowercase form, otherwise to the default window; names
    with the same lowercase form resolve alike.  ["claude-3.5-sonnet"] and
    ["fine-tuned-claude-3.5-sonnet-v2"] resolve to the same window, and
    [""], [None] and ["totally-unknown-model"] to the default. *)
Theorem C8_get_context_window (m m' : str) (w : Z) :
  (get_context_window (Some (py "claude-3.5-sonnet"))
   = get_context_window (Some (py "fine-tuned-claude-3.5-sonnet-v2")))
  /\ get_context_window (Some (py "")) = getitem MODEL_CONTEXT_WINDOWS k_default
  /\ get_context_window None = getitem MODEL_CONTEXT_WINDOWS k_default
  /\ get_context_window (Some (py "totally-unknown-model"))
     = getitem MODEL_CONTEXT_WINDOWS k_default
  /\ getitem MODEL_CONTEXT_WINDOWS k_default = Ok 176000
  /\ (m <> [] -> dict_get MODEL_CONTEXT_WINDOWS (lower m) = Some w ->
      get_context_window (Some m) = Ok w)
  /\ (m <> [] -> dict_get MODEL_CONTEXT_WINDOWS (lower m) = None ->
      forall pre post key,
        MODEL_CONTEXT_WINDOWS = pre ++ (key, w) :: post ->
        key <> k_default -> str_in key (lower m) = true ->
        (forall k v, In (k, v) pre -> str_in k (lower m) = false) ->
        get_context_window (Some m) = Ok w)
  /\ (m <> [] -> dict_get MODEL_CONTEXT_WINDOWS (lower m) = None ->
      (forall k v, In (k, v) MODEL_CONTEXT_WINDOWS ->
                   k = k_default \/ str_in k (lower m) = false) ->
      get_context_window (Some m) = getitem MODEL_CONTEXT_WINDOWS k_default)
  /\ (m <> [] -> m' <> [] -> lower m = lower m' ->
      get_context_window (Some m) = get_context_window (Some m')).
Proof.
  repeat split; try (vm_compute; reflexivity).
  - intros Hm Hd. rewrite get_context_window_nonempty, Hd by assumption.
    reflexivity.
  - intros Hm Hd pre post key Ht Hk Hin Hpre.
    rewrite get_context_window_nonempty, Hd by assumption.
    rewrite Ht, (partial_match_first (lower m) pre post key w); auto.
    intros k v Hkv. right. eapply Hpre; eauto.
  - intros Hm Hd Hall.
    rewrite get_context_window_nonempty, Hd by assumption.
    rewrite partial_match_none by assumption. reflexivity.
  - intros Hm Hm' Hl.
    rewrite !get_context_window_nonempty, Hl by assumption. reflexivity.
Qed.

(** C8 at ["My-GPT-4-Turbo-0409"]: no exact match, ["gpt-4-turbo"] is the
    first key it contains; and at ["GPT-4"], an exact match up to case. *)
Lemma C8_witness :
  get_context_window (Some (py "My-GPT-4-Turbo-0409")) = Ok 128000
  /\ get_context_window (Some (py "GPT-4")) = Ok 8192
  /\ get_context_window (Some (py "Llama-3")) = Ok 176000
  /\ get_context_window (Some (py "GPT-4"))
     = get_context_window (Some (py "gpt-4")).
Proof.
  pose proof (C8_get_context_window (py "My-GPT-4-Turbo-0409") (py "x")
                128000) as (_ & _ & _ & _ & _ & _ & H & _).
  pose proof (C8_get_context_window (py "GPT-4") (py "gpt-4") 8192)
    as (_ & _ & _ & _ & _ & G & _ & _ & K).
  pose proof (C8_get_context_window (py "Llama-3") (py "x") 0)
    as (_ & _ & _ & _ & D & _ & _ & L & _).
  refine (conj _ (conj _ (conj _ _))).
  - apply (H ltac:(discriminate) eq_refl
             (firstn 9 MODEL_CONTEXT_WINDOWS) (skipn 10 MODEL_CONTEXT_WINDOWS)
             (py "gpt-4-turbo")).
    + reflexivity.
    + discriminate.
    + reflexivity.
    + intros k v Hin. vm_compute in Hin.
      repeat (destruct Hin as [Hin | Hin];
              [inversion Hin; subst; reflexivity|]).
      destruct Hin.
  - apply G; [discriminate | reflexivity].
  - rewrite <- D. apply L; [discriminate | reflexivity |].
    intros k v Hin. vm_compute in Hin.
    repeat (destruct Hin as [Hin | Hin];
            [inversion Hin; subst; (right; reflexivity) || (left; reflexivity)|]).
    destruct Hin.
  - apply K; [discriminate | discriminate | reflexivity].
Defined.



(** C10 (as stated, refuted): the name ["claude-3-opus-gpt-4o"] has no
    exact match, contains ["gpt-4o"], and resolves to 176000, the window of
    the earlier key ["claude-3-opus"], not to 128000. *)
Lemma C10_counterexample :
  dict_get MODEL_CONTEXT_WINDOWS (lower (py "claude-3-opus-gpt-4o")) = None
  /\ str_in k_gpt_4o (py "claude-3-opus-gpt-4o") = true
  /\ get_context_window (Some (py "claude-3-opus-gpt-4o")) = Ok 176000
  /\ get_context_window (Some (py "claude-3-opus-gpt-4o")) <> Ok 128000.
Proof.
  refine (conj _ (conj _ (conj _ _))); try (vm_compute; reflexivity).
  vm_compute. intros H. discriminate H.
Qed.

(** C10 (amended): a name whose lowercase form has no exact match resolves
    to the window of the table key that comes first in insertion order
    among those it contains.  Every name containing ["gpt-4o"] contains
    ["gpt-4"]; it resolves to the gpt-4o window 128000 unless its lowercase
    form contains one of the eight [claude-*] keys listed before ["gpt-4o"],
    in which case it resolves to their window 176000; it never resolves to
    the gpt-4 window 8192. *)
Theorem C10_partial_match_order (m : str) :
  (forall pre post key w,
      m <> [] -> dict_get MODEL_CONTEXT_WINDOWS (lower m) = None ->
      MODEL_CONTEXT_WINDOWS = pre ++ (key, w) :: post ->
      key <> k_default -> str_in key (lower m) = true ->
      (forall k v, In (k, v) pre -> str_in k (lower m) = false) ->
      get_context_window (Some m) = Ok w)
  /\ (str_in k_gpt_4o m = true -> str_in k_gpt_4 m = true)
  /\ (str_in k_gpt_4o m = true ->
      get_context_window (Some m)
      = Ok (if contains_claude_key (lower m) then 176000 else 128000)
      /\ get_context_window (Some m) <> Ok 8192).
Proof.
  refine (conj _ (conj _ _)).
  - intros pre post key w Hm Hd Ht Hk Hin Hpre.
    rewrite get_context_window_nonempty, Hd by assumption.
    rewrite Ht, (partial_match_first (lower m) pre post key w); auto.
    intros k v Hkv. right. eapply Hpre; eauto.
  - apply str_in_trans. reflexivity.
  - intros H.
    assert (Hm : m <> []) by (intros ->; discriminate H).
    apply (str_in_lower k_gpt_4o) in H; [|reflexivity].
    assert (E : get_context_window (Some m)
                = Ok (if contains_claude_key (lower m)
                      then 176000 else 128000)).
    { rewrite get_context_window_nonempty by assumption.
      destruct (dict_get MODEL_CONTEXT_WINDOWS (lower m)) as [w|] eqn:Hd.
      - apply dict_get_key in Hd. unfold MODEL_CONTEXT_WINDOWS in Hd.
        repeat (destruct Hd as [Hd | Hd];
                [injection Hd as Hl Hw; rewrite <- Hl in H |- *; subst w;
                 first [reflexivity | vm_compute in H; discriminate H]|]).
        destruct Hd.
      - unfold contains_claude_key, claude_keys, MODEL_CONTEXT_WINDOWS.
        cbn [partial_match existsb].
        repeat match goal with
               | |- context [negb (str_eqb ?a k_default)] =>
                 change (negb (str_eqb a k_default)) with true
               end.
        cbn [andb].
        unfold k_gpt_4o in H. rewrite H.
        repeat match goal with
               | |- context [str_in ?k (lower m)] =>
                 destruct (str_in k (lower m)); cbn [orb]; try reflexivity
               end. }
    split; [exact E|].
    rewrite E. destruct (contains_claude_key (lower m)); discriminate.
Qed.

(** The amended C10 at ["fine-tuned-GPT-4o"], which contains no earlier
    key. *)
Lemma C10_witness :
  get_context_window (Some (py "fine-tuned-gpt-4o")) = Ok 128000
  /\ str_in k_gpt_4 (py "fine-tuned-gpt-4o") = true.
Proof.
  destruct (C10_partial_match_order (py "fine-tuned-gpt-4o"))
    as (_ & H4 & H).
  split.
  - destruct (H eq_refl) as [E _]. rewrite E. reflexivity.
  - apply H4. reflexivity.
Defined.

End TokenizerClaims.

(* ================================================================== *)
(** * Calibration store *)
(* ================================================================== *)

Lemma dict_get_set_same {V : Type} (d : dict V) (k : str) (v : V) :
  dict_get (dict_set d k v) k = Some v.
Proof.
  induction d as [|[k' v'] d IH]; simpl.
  - rewrite str_eqb_refl. reflexivity.
  - destruct (str_eqb k' k) eqn:E; simpl; rewrite E; auto.
Qed.

Lemma dict_get_set_other {V : Type} (d : dict V) (k k' : str) (v : V) :
  k <> k' -> dict_get (dict_set d k v) k' = dict_get d k'.
Proof.
  intros Hk. induction d as [|[k0 v0] d IH]; simpl.
  - apply str_eqb_neq in Hk. rewrite Hk. reflexivity.
  - destruct (str_eqb k0 k) eqn:E; simpl.
    + apply str_eqb_eq in E; subst k0.
      apply str_eqb_neq in Hk. rewrite Hk. reflexivity.
    + destruct (str_eqb k0 k'); auto.
Qed.

Lemma dict_set_set {V : Type} (d : dict V) (k : str) (v v' : V) :
  dict_set (dict_set d k v) k v' = dict_set d k v'.
Proof.
  induction d as [|[k0 v0] d IH]; simpl.
  - rewrite str_eqb_refl. reflexivity.
  - destruct (str_eqb k0 k) eqn:E; simpl; rewrite E; [reflexivity|].
    rewrite IH. reflexivity.
Qed.

Lemma dict_get_del_same {V : Type} (d : dict V) (k : str) :
  dict_get (dict_del d k) k = None.
Proof.
  induction d as [|[k0 v0] d IH]; simpl; [reflexivity|].
  destruct (str_eqb k0 k) eqn:E; simpl; [|rewrite E]; auto.
Qed.

Lemma dict_get_del_other {V : Type} (d : dict V) (k k' : str) :
  k <> k' -> dict_get (dict_del d k) k' = dict_get d k'.
Proof.
  intros Hk. induction d as [|[k0 v0] d IH]; simpl; [reflexivity|].
  destruct (str_eqb k0 k) eqn:E; simpl.
  - apply str_eqb_eq in E; subst k0.
    apply str_eqb_neq in Hk. rewrite Hk. exact IH.
  - destruct (str_eqb k0 k'); auto.
Qed.

Section CalibrationFacts.
Import Calibration.
Local Open Scope cal_scope.

Variables (dk : option FileData) (wr : bool) (clk : nat -> float).

(** Every call starts by loading the cache; afterwards the world is
    [loaded]. *)
Lemma load_loaded (w : World) :
  _load_calibration w = (Ok (view w), normal w).
Proof.
  unfold normal, view, _load_calibration.
  destruct w as [c l f wrt ck n]; simpl.
  destruct l; [destruct c|]; reflexivity.
Qed.

Lemma view_loaded (d : Data) (n : nat) : view (loaded d dk wr clk n) = d.
Proof. reflexivity. Qed.

Lemma load_on_loaded (d : Data) (n : nat) :
  _load_calibration (loaded d dk wr clk n) = (Ok d, loaded d dk wr clk n).
Proof. reflexivity. Qed.

Lemma save_on_loaded (d : Data) (n : nat) :
  _save_calibration (loaded d dk wr clk n)
  = (Ok wr, loaded d (saved dk wr d) wr clk n).
Proof. unfold _save_calibration, saved. simpl. destruct wr; reflexivity. Qed.

Lemma set_field_on_loaded (d : Data) (n : nat) (s : str)
  (upd : Session -> Session) (r : Session) :
  dict_get (sessions d) s = Some r ->
  set_field s upd (loaded d dk wr clk n)
  = (Ok tt, loaded (put_session s (upd r) d) dk wr clk n).
Proof.
  intros H. unfold set_field, bind, current, lift, getitem. simpl.
  rewrite H. reflexivity.
Qed.

Lemma recent_factors_on_loaded (vals : list Session) (d : Data) (n : nat) :
  exists l,
    recent_factors vals (loaded d dk wr clk n)
    = (Ok l, loaded d dk wr clk (n + List.length vals)).
Proof.
  revert n; induction vals as [|s vals IH]; intros n; simpl.
  - exists []. unfold ret. rewrite Nat.add_0_r. reflexivity.
  - destruct (IH (S n)) as [l Hl].
    eexists. unfold bind at 1. unfold time_time at 1. simpl.
    change (with_ticks (loaded d dk wr clk n) (S n))
      with (loaded d dk wr clk (S n)).
    unfold bind at 1. rewrite Hl. unfold ret.
    replace (n + S (List.length vals))%nat
      with (S n + List.length vals)%nat by lia.
    reflexivity.
Qed.

Lemma bind_load {A : Type} (k : Data -> M A) (w : World) :
  bind _load_calibration k w = k (view w) (normal w).
Proof. unfold bind. rewrite load_loaded. reflexivity. Qed.

Lemma get_factor_on_loaded (d : Data) (n : nat) (s : str) :
  get_factor s (loaded d dk wr clk n)
  = (Ok (match factor_at s (sessions d) with Some f => f | None => 1%float end),
     loaded d dk wr clk n).
Proof.
  unfold get_factor, factor_at, bind. rewrite load_on_loaded.
  destruct (dict_get (sessions d) s) as [r|]; [|reflexivity].
  destruct r as [f u le et la ca]; unfold session_truthy; simpl.
  destruct f; simpl; [reflexivity|].
  rewrite andb_false_r. reflexivity.
Qed.

Lemma get_last_estimate_on_loaded (d : Data) (n : nat) (s : str) :
  get_last_estimate s (loaded d dk wr clk n)
  = (Ok (last_estimate_at s (sessions d)), loaded d dk wr clk n).
Proof.
  unfold get_last_estimate, last_estimate_at, bind. rewrite load_on_loaded.
  destruct (dict_get (sessions d) s) as [r|]; [|reflexivity].
  unfold session_truthy.
  destruct r as [f u le et la ca]; simpl.
  destruct f, u, le, et, la, ca; reflexivity.
Qed.

Lemma set_last_estimate_on_loaded (d : Data) (n : nat) (s : str) (t : Z) :
  set_last_estimate s t (loaded d dk wr clk n)
  = (Ok tt,
     let d' :=
       put_session s (with_estimate (record_of s (sessions d)) t (clk n)) d in
     loaded d' (saved dk wr d') wr clk (S n)).
Proof.
  unfold set_last_estimate, record_of. unfold bind at 1.
  rewrite load_on_loaded. unfold dict_mem.
  destruct (dict_get (sessions d) s) as [r|] eqn:E.
  - unfold bind at 1. unfold ret at 1.
    unfold bind at 1. rewrite (set_field_on_loaded _ _ _ _ r E).
    unfold bind at 1. unfold time_time at 1. simpl ticks. simpl clock.
    change (with_ticks (loaded ?d0 dk wr clk n) (S n))
      with (loaded d0 dk wr clk (S n)).
    unfold bind at 1.
    erewrite set_field_on_loaded
      by (unfold put_session; simpl; apply dict_get_set_same).
    unfold bind at 1. rewrite save_on_loaded. unfold ret.
    unfold put_session, set_sessions; simpl. rewrite dict_set_set.
    reflexivity.
  - unfold bind at 1. unfold mutate at 1. simpl.
    change (with_cache (loaded d dk wr clk n) ?c true)
      with (loaded (put_session s empty_session d) dk wr clk n).
    unfold bind at 1.
    erewrite set_field_on_loaded
      by (unfold put_session; simpl; apply dict_get_set_same).
    unfold bind at 1. unfold time_time at 1. simpl ticks. simpl clock.
    change (with_ticks (loaded ?d0 dk wr clk n) (S n))
      with (loaded d0 dk wr clk (S n)).
    unfold bind at 1.
    erewrite set_field_on_loaded
      by (unfold put_session; simpl; apply dict_get_set_same).
    unfold bind at 1. rewrite save_on_loaded. unfold ret.
    unfold put_session, set_sessions; simpl. rewrite !dict_set_set.
    reflexivity.
Qed.

Lemma set_factor_on_loaded (d : Data) (n : nat) (s : str) (f : float) :
  exists g k,
    set_factor s f (loaded d dk wr clk n)
    = (Ok tt,
       let d' :=
         {| sessions :=
              dict_set (sessions d) s (factor_record (clamp f) (clk n));
            global_factor := g |} in
       loaded d' (saved dk wr d') wr clk k).
Proof.
  unfold set_factor. unfold bind at 1. rewrite load_on_loaded.
  unfold bind at 1. unfold time_time at 1. simpl ticks. simpl clock.
  change (with_ticks (loaded d dk wr clk n) (S n))
    with (loaded d dk wr clk (S n)).
  unfold bind at 1. unfold mutate at 1. simpl.
  match goal with
  | |- context [with_cache (loaded d dk wr clk (S n)) (Some ?d1) true] =>
    change (with_cache (loaded d dk wr clk (S n)) (Some d1) true)
      with (loaded d1 dk wr clk (S n)); set (D1 := d1)
  end.
  unfold bind at 1. unfold current at 1. simpl.
  unfold bind at 1.
  match goal with
  | |- context [recent_factors ?v (loaded D1 dk wr clk (S n))] =>
    destruct (recent_factors_on_loaded v D1 (S n)) as [l Hl]; rewrite Hl
  end.
  destruct l as [|x l].
  - exists (global_factor d). eexists.
    unfold bind at 1. unfold ret at 1.
    unfold bind at 1. rewrite save_on_loaded. unfold ret. reflexivity.
  - eexists. eexists.
    unfold bind at 1. unfold mutate at 1. simpl.
    match goal with
    | |- context [with_cache (loaded D1 dk wr clk ?k) (Some ?d2) true] =>
      change (with_cache (loaded D1 dk wr clk k) (Some d2) true)
        with (loaded d2 dk wr clk k)
    end.
    unfold bind at 1. rewrite save_on_loaded. unfold ret. reflexivity.
Qed.

Lemma clear_session_on_loaded (d : Data) (n : nat) (s : str) :
  clear_session s (loaded d dk wr clk n)
  = (Ok tt,
     if dict_mem (sessions d) s
     then let d' := set_sessions (dict_del (sessions d) s) d in
          loaded d' (saved dk wr d') wr clk n
     else loaded d dk wr clk n).
Proof.
  unfold clear_session. unfold bind at 1. rewrite load_on_loaded.
  destruct (dict_mem (sessions d) s); [|reflexivity].
  unfold bind at 1. unfold mutate at 1. simpl.
  change (with_cache (loaded d dk wr clk n) (Some ?d1) true)
    with (loaded d1 dk wr clk n).
  unfold bind at 1. rewrite save_on_loaded. reflexivity.
Qed.

End CalibrationFacts.

Section CalibrationCalls.
Import Calibration.
Local Open Scope cal_scope.

Lemma saved_saved (dk : option FileData) (wr : bool) (d d' : Data) :
  saved (saved dk wr d) wr d' = saved dk wr d'.
Proof. unfold saved. destruct wr; reflexivity. Qed.

Lemma bind_ok {A B : Type} (m : M A) (k : A -> M B) (w w' : World) (a : A) :
  m w = (Ok a, w') -> bind m k w = k a w'.
Proof. intros H. unfold bind. rewrite H. reflexivity. Qed.

Lemma bind_raise {A B : Type} (m : M A) (k : A -> M B) (w w' : World)
  (x : exn) :
  m w = (Raise x, w') -> bind m k w = (Raise x, w').
Proof. intros H. unfold bind. rewrite H. reflexivity. Qed.

Lemma time_on_loaded dk wr clk (d : Data) (n : nat) :
  time_time (loaded d dk wr clk n) = (Ok (clk n), loaded d dk wr clk (S n)).
Proof. reflexivity. Qed.

(** Nothing to correct against: the call returns [None] and the loaded
    world stays as it is. *)
Lemma calibrate_on_loaded_none dk wr clk (d : Data) (n : nat) (s : str)
  (a : Z) :
  match last_estimate_at s (sessions d) with
  | Some e => e <= 0
  | None => True
  end ->
  calibrate_from_actual s a (loaded d dk wr clk n)
  = (Ok None, loaded d dk wr clk n).
Proof.
  intros H. unfold calibrate_from_actual.
  erewrite bind_ok by apply get_last_estimate_on_loaded.
  destruct (last_estimate_at s (sessions d)) as [e|]; [|reflexivity].
  destruct (Z.leb_spec e 0); [|lia].
  rewrite orb_true_r. reflexivity.
Qed.

(** The quotient cannot be formed: the exception leaves the loaded world as
    it is. *)
Lemma calibrate_on_loaded_raise dk wr clk (d : Data) (n : nat) (s : str)
  (a e : Z) (x : exn) :
  last_estimate_at s (sessions d) = Some e -> 0 < e ->
  int_truediv a e = Raise x ->
  calibrate_from_actual s a (loaded d dk wr clk n)
  = (Raise x, loaded d dk wr clk n).
Proof.
  intros He Hpos Hq. unfold calibrate_from_actual.
  erewrite bind_ok by apply get_last_estimate_on_loaded.
  rewrite He.
  destruct (Z.eqb_spec e 0); [lia|]. destruct (Z.leb_spec e 0); [lia|].
  change (false || false) with false. cbv iota.
  apply bind_raise. unfold lift. rewrite Hq. reflexivity.
Qed.

(** A calibration: the record of the session is replaced by the clamped
    factor, its time stamp, the actual count and its time stamp. *)
Lemma calibrate_on_loaded_some dk wr clk (d : Data) (n : nat) (s : str)
  (a e : Z) (q : float) :
  last_estimate_at s (sessions d) = Some e -> 0 < e ->
  int_truediv a e = Ok q ->
  exists g k t,
    calibrate_from_actual s a (loaded d dk wr clk n)
    = (Ok (Some q),
       let d' :=
         {| sessions :=
              dict_set (sessions d) s
                (with_actual (factor_record (clamp q) (clk n)) a t);
            global_factor := g |} in
       loaded d' (saved dk wr d') wr clk k).
Proof.
  intros He Hpos Hq. unfold calibrate_from_actual.
  erewrite bind_ok by apply get_last_estimate_on_loaded.
  rewrite He.
  destruct (Z.eqb_spec e 0); [lia|]. destruct (Z.leb_spec e 0); [lia|].
  change (false || false) with false. cbv iota.
  erewrite bind_ok by (unfold lift; rewrite Hq; reflexivity).
  destruct (set_factor_on_loaded dk wr clk d n s q) as [g [k Hsf]].
  cbv zeta in Hsf.
  erewrite bind_ok by exact Hsf.
  erewrite bind_ok by apply load_on_loaded.
  unfold dict_mem. cbn [sessions]. rewrite dict_get_set_same.
  exists g, (S k), (clk k).
  erewrite bind_ok; [reflexivity|].
  erewrite bind_ok
    by (apply set_field_on_loaded; cbn [sessions]; apply dict_get_set_same).
  erewrite bind_ok by apply time_on_loaded.
  erewrite bind_ok
    by (apply set_field_on_loaded; unfold put_session;
        cbn [sessions set_sessions]; apply dict_get_set_same).
  erewrite bind_ok by apply save_on_loaded.
  unfold ret, put_session, set_sessions. cbn [sessions global_factor].
  rewrite !dict_set_set, saved_saved. reflexivity.
Qed.

(** Calls on any world continue on its loaded form. *)
Lemma get_factor_normal (s : str) (w : World) :
  get_factor s w = get_factor s (normal w).
Proof. unfold get_factor. rewrite bind_load. reflexivity. Qed.

Lemma get_last_estimate_normal (s : str) (w : World) :
  get_last_estimate s w = get_last_estimate s (normal w).
Proof. unfold get_last_estimate. rewrite bind_load. reflexivity. Qed.

Lemma set_last_estimate_normal (s : str) (t : Z) (w : World) :
  set_last_estimate s t w = set_last_estimate s t (normal w).
Proof. unfold set_last_estimate. rewrite bind_load. reflexivity. Qed.

Lemma set_factor_normal (s : str) (f : float) (w : World) :
  set_factor s f w = set_factor s f (normal w).
Proof. unfold set_factor. rewrite bind_load. reflexivity. Qed.

Lemma clear_session_normal (s : str) (w : World) :
  clear_session s w = clear_session s (normal w).
Proof. unfold clear_session. rewrite bind_load. reflexivity. Qed.

Lemma get_calibration_stats_normal (w : World) :
  snd (get_calibration_stats w) = normal w.
Proof. unfold get_calibration_stats. rewrite bind_load. reflexivity. Qed.

Lemma calibrate_from_actual_normal (s : str) (a : Z) (w : World) :
  calibrate_from_actual s a w = calibrate_from_actual s a (normal w).
Proof.
  unfold calibrate_from_actual. unfold bind at 1 3.
  rewrite get_last_estimate_normal. reflexivity.
Qed.

End CalibrationCalls.

Section CalibrationClaims.
Import Calibration.
Local Open Scope cal_scope.

(** C1 (as stated, refuted): after an estimate of 1000 tokens, an actual
    count of 5000 makes [calibrate_from_actual] return the ratio 5.0 itself,
    not its clamp 2.0. *)
Lemma C1_counterexample :
  let w1 := snd (set_last_estimate (py "s") 1000 (fresh tick_clock)) in
  fst (calibrate_from_actual (py "s") 5000 w1) = Ok (Some 5%float)
  /\ int_truediv 5000 1000 = Ok 5%float
  /\ clamp 5 = 2%float
  /\ fst (calibrate_from_actual (py "s") 5000 w1) <> Ok (Some (clamp 5)).
Proof.
  cbv zeta. refine (conj _ (conj _ (conj _ _))); try (vm_compute; reflexivity).
  intros H.
  apply (f_equal (fun r => match r with
                           | Ok (Some x) => Prim2SF x
                           | _ => S754_nan
                           end)) in H.
  vm_compute in H. discriminate H.
Qed.

(** C1 (amended): for every store, session [s], estimate [e > 0] recorded by
    [set_last_estimate(s, e)] and actual count [a] whose quotient [a / e] is
    a float [q]: [calibrate_from_actual(s, a)] returns [q] itself, not
    clamped; a subsequent [get_factor(s)] returns [clamp(q, 0.5, 2.0)]; the
    two agree when [0.5 < q < 2.0]. *)
Theorem C1_calibrate_returns_ratio (w : World) (s : str) (e a : Z)
  (q : float) :
  0 < e -> int_truediv a e = Ok q ->
  let w1 := snd (set_last_estimate s e w) in
  let r := calibrate_from_actual s a w1 in
  fst r = Ok (Some q)
  /\ fst (get_factor s (snd r)) = Ok (clamp q)
  /\ (PrimFloat.ltb 0.5 q = true -> PrimFloat.ltb q 2 = true -> clamp q = q).
Proof.
  intros He Hq. cbv zeta.
  rewrite set_last_estimate_normal. unfold normal.
  rewrite set_last_estimate_on_loaded. cbv zeta. cbn [snd].
  match goal with
  | |- context [calibrate_from_actual s a (loaded ?d ?dk ?wr ?clk ?n)] =>
    destruct (calibrate_on_loaded_some dk wr clk d n s a e q)
      as [g [k [t Hc]]]; auto
  end.
  { unfold last_estimate_at, put_session. cbn [sessions set_sessions].
    rewrite dict_get_set_same. reflexivity. }
  rewrite Hc. cbv zeta. cbn [fst snd].
  refine (conj eq_refl (conj _ _)).
  - rewrite get_factor_on_loaded. cbn [fst sessions].
    unfold factor_at. rewrite dict_get_set_same. reflexivity.
  - intros H1 H2. unfold clamp, fmax, fmin. rewrite H2, H1. reflexivity.
Qed.

(** The amended C1 at the figures of the module's own test: an estimate of
    10000 and an actual count of 11000. *)
Lemma C1_witness :
  let w1 := snd (set_last_estimate (py "test-session") 10000
                   (fresh tick_clock)) in
  let r := calibrate_from_actual (py "test-session") 11000 w1 in
  fst r = Ok (Some (PrimFloat.div 11 10))
  /\ fst (get_factor (py "test-session") (snd r)) = Ok (PrimFloat.div 11 10).
Proof.
  destruct (C1_calibrate_returns_ratio (fresh tick_clock)
              (py "test-session") 10000 11000 (PrimFloat.div 11 10))
    as (H1 & H2 & H3).
  - lia.
  - vm_compute. reflexivity.
  - cbv zeta. split; [exact H1|].
    rewrite H2, H3; [reflexivity | vm_compute; reflexivity
                     | vm_compute; reflexivity].
Defined.

(** C2 (what the code does): [set_factor(s, f)] replaces the whole record of
    [s] by one that holds only [factor] and [updated_at]; an estimate
    recorded before by [set_last_estimate(s, t)] is lost, and
    [get_last_estimate(s)] returns [None] instead of [t]. *)
Theorem C2_set_factor_drops_last_estimate (w : World) (s : str) (t : Z)
  (f : float) :
  let w1 := snd (set_last_estimate s t w) in
  fst (get_last_estimate s w1) = Ok (Some t)
  /\ fst (get_last_estimate s (snd (set_factor s f w1))) = Ok None.
Proof.
  cbv zeta. rewrite set_last_estimate_normal. unfold normal.
  rewrite set_last_estimate_on_loaded. cbv zeta. cbn [snd].
  split.
  - rewrite get_last_estimate_on_loaded. cbn [fst].
    unfold last_estimate_at, put_session. cbn [sessions set_sessions].
    rewrite dict_get_set_same. reflexivity.
  - match goal with
    | |- context [set_factor s f (loaded ?d ?dk ?wr ?clk ?n)] =>
      destruct (set_factor_on_loaded dk wr clk d n s f) as [g [k Hs]]
    end.
    rewrite Hs. cbv zeta. cbn [snd].
    rewrite get_last_estimate_on_loaded. cbn [fst sessions].
    unfold last_estimate_at. rewrite dict_get_set_same. reflexivity.
Qed.

(** C5: when [get_last_estimate(s)] is [None] or not positive,
    [calibrate_from_actual(s, a)] returns [None]; its only effect is the
    loading of the cache, so the store as seen by the next call and the
    calibration file are unchanged, a loaded world is unchanged altogether,
    and [s] gains neither a record nor a factor. *)
Theorem C5_calibrate_without_estimate (w : World) (s : str) (a : Z) :
  (forall e, fst (get_last_estimate s w) = Ok (Some e) -> e <= 0) ->
  let r := calibrate_from_actual s a w in
  fst r = Ok None
  /\ snd r = snd (_load_calibration w)
  /\ view (snd r) = view w
  /\ disk (snd r) = disk w
  /\ dict_get (sessions (view (snd r))) s = dict_get (sessions (view w)) s
  /\ fst (get_factor s (snd r)) = fst (get_factor s w)
  /\ (_cache_loaded w = true -> _calibration_cache w <> None -> snd r = w).
Proof.
  intros H. cbv zeta.
  rewrite get_last_estimate_normal in H. unfold normal in H.
  rewrite get_last_estimate_on_loaded in H. cbn [fst] in H.
  rewrite calibrate_from_actual_normal. unfold normal.
  rewrite calibrate_on_loaded_none.
  2:{ destruct (last_estimate_at s (sessions (view w))) as [e|]; auto. }
  cbn [fst snd]. rewrite load_loaded. cbn [snd]. fold (normal w).
  refine (conj eq_refl (conj eq_refl (conj eq_refl (conj eq_refl
            (conj eq_refl (conj _ _)))))).
  - rewrite (get_factor_normal s w). reflexivity.
  - intros Hl Hc. unfold normal, view, _load_calibration.
    destruct w as [c l dk wr clk n]. simpl in *. subst l.
    destruct c; [reflexivity | congruence].
Qed.

(** C5 on a fresh store and on a store whose estimate for the session is 0. *)
Lemma C5_witness :
  fst (calibrate_from_actual (py "new-session") 50000 (fresh tick_clock))
  = Ok None
  /\ (let w := snd (set_last_estimate (py "s") 0 (fresh tick_clock)) in
      snd (calibrate_from_actual (py "s") 50000 w) = w).
Proof.
  split.
  - apply (C5_calibrate_without_estimate (fresh tick_clock)
             (py "new-session") 50000).
    intros e H. vm_compute in H. discriminate H.
  - cbv zeta.
    apply (C5_calibrate_without_estimate
             (snd (set_last_estimate (py "s") 0 (fresh tick_clock)))
             (py "s") 50000).
    + intros e H. vm_compute in H. injection H as <-. lia.
    + reflexivity.
    + vm_compute. discriminate.
Defined.

End CalibrationClaims.

Section CalibrationHistory.
Import Calibration.
Local Open Scope cal_scope.

Lemma no_factor_loaded (s : str) (d : Data) dk wr clk (n : nat) :
  factor_at s (sessions d) = None -> file_no_factor s dk ->
  no_factor s (loaded d dk wr clk n).
Proof. intros H1 H2. split; assumption. Qed.

Lemma file_no_factor_saved (s : str) (d : Data) dk (wr : bool) :
  factor_at s (sessions d) = None -> file_no_factor s dk ->
  file_no_factor s (saved dk wr d).
Proof. intros H1 H2. unfold saved. destruct wr; assumption. Qed.

Lemma no_factor_normal (s : str) (w : World) :
  no_factor s w -> no_factor s (normal w).
Proof. intros [H1 H2]. split; assumption. Qed.

Lemma factor_at_set_other (s s' : str) (ss : dict Session) (r : Session) :
  s' <> s -> factor_at s (dict_set ss s' r) = factor_at s ss.
Proof.
  intros H. unfold factor_at. rewrite dict_get_set_other by assumption.
  reflexivity.
Qed.

Lemma factor_at_set_same (s : str) (ss : dict Session) (r : Session) :
  factor_at s (dict_set ss s r) = factor r.
Proof. unfold factor_at. rewrite dict_get_set_same. reflexivity. Qed.

Lemma factor_record_of (s : str) (ss : dict Session) :
  factor (record_of s ss) = factor_at s ss.
Proof.
  unfold record_of, factor_at. destruct (dict_get ss s); reflexivity.
Qed.

Lemma factor_at_del (s s' : str) (ss : dict Session) :
  factor_at s ss = None -> factor_at s (dict_del ss s') = None.
Proof.
  intros H. unfold factor_at.
  destruct (str_eqb s' s) eqn:E.
  - apply str_eqb_eq in E; subst. rewrite dict_get_del_same. reflexivity.
  - apply str_eqb_neq in E. rewrite dict_get_del_other by assumption.
    exact H.
Qed.

(** A call that does not write a factor for [s] keeps [s] without one. *)
Lemma run_call_no_factor (s : str) (c : call) (w : World) :
  sets_factor_of s c = false -> no_factor s w -> no_factor s (run_call c w).
Proof.
  intros Hc Hw. pose proof (no_factor_normal s w Hw) as Hn.
  destruct Hw as [Hv Hd].
  destruct c as [s' | s' f | s' | s' t | s' a | s' | | ]; simpl run_call.
  - rewrite get_factor_normal. unfold normal.
    rewrite get_factor_on_loaded. exact Hn.
  - simpl in Hc. apply str_eqb_neq in Hc.
    rewrite set_factor_normal. unfold normal.
    destruct (set_factor_on_loaded (disk w) (disk_writable w) (clock w)
                (view w) (ticks w) s' f) as [g [k Hs]].
    rewrite Hs. cbv zeta. cbn [snd].
    assert (factor_at s (dict_set (sessions (view w)) s'
                           (factor_record (clamp f)
                              (clock w (ticks w)))) = None)
      by (rewrite factor_at_set_other; assumption).
    apply no_factor_loaded; [|apply file_no_factor_saved]; assumption.
  - rewrite get_last_estimate_normal. unfold normal.
    rewrite get_last_estimate_on_loaded. exact Hn.
  - rewrite set_last_estimate_normal. unfold normal.
    rewrite set_last_estimate_on_loaded. cbv zeta. cbn [snd].
    assert (factor_at s
              (sessions
                 (put_session s'
                    (with_estimate (record_of s' (sessions (view w))) t
                       (clock w (ticks w))) (view w))) = None).
    { unfold put_session. cbn [sessions set_sessions].
      destruct (str_eqb s' s) eqn:E.
      - apply str_eqb_eq in E; subst s'. rewrite factor_at_set_same.
        cbn [factor with_estimate]. rewrite factor_record_of. exact Hv.
      - apply str_eqb_neq in E. rewrite factor_at_set_other; assumption. }
    apply no_factor_loaded; [|apply file_no_factor_saved]; assumption.
  - simpl in Hc. apply str_eqb_neq in Hc.
    rewrite calibrate_from_actual_normal. unfold normal.
    destruct (last_estimate_at s' (sessions (view w))) as [e|] eqn:He.
    + destruct (Z.leb_spec e 0) as [Hle | Hpos].
      * rewrite calibrate_on_loaded_none by (rewrite He; exact Hle).
        exact Hn.
      * destruct (int_truediv a e) as [q | x] eqn:Hq.
        -- destruct (calibrate_on_loaded_some (disk w) (disk_writable w)
                       (clock w) (view w) (ticks w) s' a e q He Hpos Hq)
             as [g [k [t Hcal]]].
           rewrite Hcal. cbv zeta. cbn [snd].
           match goal with
           | |- no_factor s (loaded ?d' _ _ _ _) =>
             assert (factor_at s (sessions d') = None)
               by (cbn [sessions]; rewrite factor_at_set_other; assumption)
           end.
           apply no_factor_loaded; [|apply file_no_factor_saved]; assumption.
        -- rewrite (calibrate_on_loaded_raise _ _ _ _ _ _ _ e x He Hpos Hq).
           exact Hn.
    + rewrite calibrate_on_loaded_none by (rewrite He; exact I).
      exact Hn.
  - rewrite clear_session_normal. unfold normal.
    rewrite clear_session_on_loaded. cbn [snd].
    destruct (dict_mem (sessions (view w)) s'); [|exact Hn].
    cbv zeta.
    assert (factor_at s
              (sessions
                 (set_sessions (dict_del (sessions (view w)) s') (view w)))
            = None)
      by (cbn [sessions set_sessions]; apply factor_at_del; assumption).
    apply no_factor_loaded; [|apply file_no_factor_saved]; assumption.
  - rewrite get_calibration_stats_normal. exact Hn.
  - split; [|exact Hd].
    unfold view, _load_calibration. simpl.
    unfold file_no_factor in Hd.
    destruct (disk w) as [f|]; [|reflexivity].
    unfold update. cbn [sessions].
    destruct (file_sessions f); [exact Hd | reflexivity].
Qed.

Lemma run_calls_no_factor (s : str) (cs : list call) (w : World) :
  forallb (fun c => negb (sets_factor_of s c)) cs = true ->
  no_factor s w -> no_factor s (run_calls cs w).
Proof.
  revert w. induction cs as [|c cs IH]; intros w Hcs Hw; [exact Hw|].
  simpl in Hcs. apply andb_true_iff in Hcs. destruct Hcs as [Hc Hcs].
  apply negb_true_iff in Hc.
  unfold run_calls. simpl. apply IH; [exact Hcs|].
  apply run_call_no_factor; assumption.
Qed.

(** C4: after any history of calls and process restarts in which neither
    [set_factor] nor [calibrate_from_actual] is called on [s], starting from
    a store that records no factor for [s] (whatever it records for other
    sessions and whatever its [global_factor] is), [get_factor(s)] returns
    exactly [1.0]. *)
Theorem C4_get_factor_default (w : World) (s : str) (cs : list call) :
  no_factor s w ->
  forallb (fun c => negb (sets_factor_of s c)) cs = true ->
  fst (get_factor s (run_calls cs w)) = Ok 1%float.
Proof.
  intros Hw Hcs.
  destruct (run_calls_no_factor s cs w Hcs Hw) as [Hv _].
  rewrite get_factor_normal. unfold normal.
  rewrite get_factor_on_loaded. cbn [fst]. rewrite Hv. reflexivity.
Qed.

(** C4 on a history that calibrates two other sessions far from [1.0],
    records and clears estimates of the session itself, and restarts the
    process. *)
Lemma C4_witness :
  let cs :=
    [ SetFactor (py "other") 1.75;
      SetLastEstimate (py "third") 1000;
      CalibrateFromActual (py "third") 1500;
      SetLastEstimate (py "new-session") 50000;
      NewProcess;
      GetCalibrationStats;
      ClearSession (py "new-session");
      SetLastEstimate (py "new-session") 70000 ] in
  fst (get_factor (py "new-session") (run_calls cs (fresh tick_clock)))
  = Ok 1%float
  /\ global_factor (view (run_calls cs (fresh tick_clock))) = 1.625%float.
Proof.
  cbv zeta. split.
  - apply C4_get_factor_default.
    + split; [reflexivity | exact I].
    + vm_compute. reflexivity.
  - vm_compute. reflexivity.
Defined.

End CalibrationHistory.

(* ================================================================== *)
(** * Context report parser *)
(* ================================================================== *)

Section ParserHeader.
Import Re ContextParser.
Local Open Scope py_scope.

(** C3 (what the code does): both branches of the test for a [k] in the
    header are the same expression, so a header value is multiplied by 1000
    whether or not it carries the suffix, and [max_tokens] is multiplied
    without any test.  The header [48k/200k tokens (24%)] gives 48000 and
    200000 and the category line [Memory files: 843 tokens (0.4%)] gives
    843, but the header [48000/200000 tokens (24%)] gives 48000000 and
    200000000. *)
Theorem C3_header_always_multiplied (output : str) (b : ContextBreakdown) :
  parse_header output b
  = match search header_pattern output with
    | None => Ok b
    | Some m =>
      total <- (x <- float_of_str (group m 2) ;;
                int_of_float (PrimFloat.mul x 1000)) ;;
      maxt <- (x <- float_of_str (group m 3) ;;
               int_of_float (PrimFloat.mul x 1000)) ;;
      used <- float_of_str (group m 4) ;;
      Ok (set_header b (group m 1) total maxt used)
    end
  /\ option_map total_tokens (parsed report_suffix) = Some 48000
  /\ option_map max_tokens (parsed report_suffix) = Some 200000
  /\ option_map tokens
       (match parsed report_suffix with
        | Some p => memory_files p
        | None => None
        end) = Some 843
  /\ option_map tokens
       (match parsed report_no_suffix with
        | Some p => memory_files p
        | None => None
        end) = Some 843
  /\ option_map total_tokens (parsed report_no_suffix) = Some 48000000
  /\ option_map max_tokens (parsed report_no_suffix) = Some 200000000.
Proof.
  refine (conj _ (conj _ (conj _ (conj _ (conj _ (conj _ _))))));
    try (vm_compute; reflexivity).
  unfold parse_header.
  destruct (search header_pattern output) as [m|]; [|reflexivity].
  destruct (str_in s_k (slice output (m_start m) (m_end m))); reflexivity.
Qed.

End ParserHeader.

Section MatcherFacts.
Import Re.
Context {A : Type}.









End MatcherFacts.

Section MatcherAlphabet.
Import Re.




End MatcherAlphabet.

Section ItemPattern.
Import Re ContextParser.













End ItemPattern.

Section FindFacts.

Variable sub : str.





End FindFacts.




Section SectionWindows.
Import Re ContextParser.
Local Open Scope py_scope.





(** One turn of the loop over the sections: the category, when there is
    one, gains the items read in the span of its section. *)
Lemma parse_section_items (output section_name : str)
  (c : ContextCategory) (r : option ContextCategory) :
  parse_section output section_name (Some c) = Ok r ->
  exists l,
    window_items output section_name = Ok l
    /\ exists c', r = Some c' /\ items c' = items c ++ l.
Proof.
  unfold parse_section, window_items, section_window. intros H.
  destruct (section_start output section_name =? -1).
  - exists []. split; [reflexivity|]. exists c.
    inversion H. rewrite app_nil_r. auto.
  - unfold rbind in H.
    destruct (parse_items _) as [l|]; [|discriminate].
    exists l. split; [reflexivity|]. eexists. inversion H. split; reflexivity.
Qed.

Lemma parse_section_none (output section_name : str)
  (o r : option ContextCategory) :
  parse_section output section_name o = Ok r -> r = None -> o = None.
Proof.
  intros H ->. destruct o as [c|]; [|reflexivity].
  apply parse_section_items in H.
  destruct H as [l [_ [c' [H _]]]]. discriminate H.
Qed.

Lemma get_set_slot (b : ContextBreakdown) (f f' : slot)
  (c : option ContextCategory) :
  get_slot (set_slot b f c) f' = if slot_eqb f f' then c else get_slot b f'.
Proof. destruct f, f'; reflexivity. Qed.

Lemma parse_categories_no_items (ms : list Match) :
  forall b b', no_items b -> parse_categories b ms = Ok b' -> no_items b'.
Proof.
  induction ms as [|m ms IH]; intros b b' Hb H; simpl in H.
  - inversion H; subst. exact Hb.
  - unfold rbind in H at 1.
    destruct (parse_category b m) as [b1|] eqn:E; [|discriminate].
    apply (IH b1 b'); [|exact H].
    unfold parse_category, rbind in E.
    destruct (float_of_str (group m 2)); [|discriminate].
    destruct (if match group_opt m 3 with
                 | Some s => str_eqb s s_k
                 | None => false
                 end then _ else _); [|discriminate].
    destruct (float_of_str (group m 4)); [|discriminate].
    inversion E; subst b1.
    destruct (classify (lower (strip (group m 1)))) as [f|]; [|exact Hb].
    intros f' c. rewrite get_set_slot.
    destruct (slot_eqb f f'); [|apply Hb].
    intros Hc. inversion Hc. reflexivity.
Qed.

Lemma parse_summary_no_items (output : str) (b : ContextBreakdown) :
  parse_summary output = Ok b -> no_items b.
Proof.
  unfold parse_summary, rbind. intros H.
  destruct (parse_header output (empty_breakdown output)) as [b0|] eqn:E;
    [|discriminate].
  apply (parse_categories_no_items (finditer category_pattern output) b0 b);
    [|exact H].
  unfold parse_header in E.
  destruct (search header_pattern output) as [m|].
  - unfold rbind in E.
    repeat match type of E with
           | context [match ?x with Ok _ => _ | Raise _ => _ end] =>
             destruct x; try discriminate E
           end.
    inversion E; subst b0. intros f c Hf. destruct f; discriminate Hf.
  - inversion E; subst b0. intros f c Hf. destruct f; discriminate Hf.
Qed.



End SectionWindows.

Section ParserItems.
Import Re ContextParser.




End ParserItems.

(* ================================================================== *)
(** * Further properties of the calibration store *)
(* ================================================================== *)

Section CalibrationMore.
Import Calibration.
Local Open Scope cal_scope.

Lemma ltb_leb (x y : float) :
  PrimFloat.ltb x y = true -> PrimFloat.leb x y = true.
Proof.
  rewrite ltb_spec, leb_spec. unfold SFltb, SFleb.
  destruct (SFcompare (Prim2SF x) (Prim2SF y)) as [[ | | ]|];
    congruence.
Qed.

(** The clamp lies between 0.5 and 2.0 for every float, the NaN included. *)
Lemma clamp_bounds (f : float) :
  PrimFloat.leb 0.5 (clamp f) = true /\ PrimFloat.leb (clamp f) 2 = true.
Proof.
  unfold clamp, fmax, fmin.
  destruct (PrimFloat.ltb f 2) eqn:E2.
  - destruct (PrimFloat.ltb 0.5 f) eqn:E1.
    + split; apply ltb_leb; assumption.
    + split; vm_compute; reflexivity.
  - change (PrimFloat.ltb 0.5 2) with true. cbv iota.
    split; vm_compute; reflexivity.
Qed.

(** X1: after [set_factor(s, f)], [get_factor(s)] returns the clamp of
    [f], and that value lies in [0.5, 2.0] for every float [f]; a NaN is
    stored as 2.0. *)
Theorem X1_set_factor_get_factor (w : World) (s : str) (f : float) :
  fst (set_factor s f w) = Ok tt
  /\ fst (get_factor s (snd (set_factor s f w))) = Ok (clamp f)
  /\ PrimFloat.leb 0.5 (clamp f) = true
  /\ PrimFloat.leb (clamp f) 2 = true
  /\ clamp nan = 2%float.
Proof.
  rewrite set_factor_normal. unfold normal.
  destruct (set_factor_on_loaded (disk w) (disk_writable w) (clock w)
              (view w) (ticks w) s f) as [g [k Hs]].
  rewrite Hs. cbv zeta. cbn [fst snd].
  rewrite get_factor_on_loaded. cbn [fst sessions].
  rewrite factor_at_set_same.
  destruct (clamp_bounds f) as [B1 B2].
  refine (conj eq_refl (conj eq_refl (conj B1 (conj B2 _)))).
  vm_compute. reflexivity.
Qed.

(** X2: [clear_session(s)] never raises, also when [s] is unknown;
    afterwards [get_factor(s)] is 1.0 and [get_last_estimate(s)] is
    [None]. *)
Theorem X2_clear_session_resets (w : World) (s : str) :
  let w' := snd (clear_session s w) in
  fst (clear_session s w) = Ok tt
  /\ fst (get_factor s w') = Ok 1%float
  /\ fst (get_last_estimate s w') = Ok None
  /\ dict_get (sessions (view w')) s = None.
Proof.
  cbv zeta. rewrite clear_session_normal. unfold normal.
  rewrite clear_session_on_loaded. cbn [fst snd]. unfold dict_mem.
  destruct (dict_get (sessions (view w)) s) as [r|] eqn:E.
  - cbv zeta. rewrite get_factor_on_loaded, get_last_estimate_on_loaded.
    cbn [fst]. unfold factor_at, last_estimate_at.
    cbn [sessions set_sessions]. rewrite view_loaded.
    cbn [sessions set_sessions]. rewrite dict_get_del_same. auto.
  - rewrite get_factor_on_loaded, get_last_estimate_on_loaded.
    cbn [fst]. unfold factor_at, last_estimate_at.
    rewrite view_loaded, E. auto.
Qed.

(** The record a call leaves for a session it does not touch. *)
Lemma run_call_frame (s : str) (c : call) (w : World) :
  touches s c = false ->
  dict_get (sessions (view (run_call c w))) s
  = dict_get (sessions (view w)) s.
Proof.
  intros Hc.
  destruct c as [s' | s' f | s' | s' t | s' a | s' | | ]; simpl run_call;
    simpl in Hc; try discriminate Hc.
  - rewrite get_factor_normal. unfold normal.
    rewrite get_factor_on_loaded. reflexivity.
  - apply str_eqb_neq in Hc.
    rewrite set_factor_normal. unfold normal.
    destruct (set_factor_on_loaded (disk w) (disk_writable w) (clock w)
                (view w) (ticks w) s' f) as [g [k Hs]].
    rewrite Hs. cbv zeta. cbn [snd]. rewrite view_loaded. cbn [sessions].
    apply dict_get_set_other. exact Hc.
  - rewrite get_last_estimate_normal. unfold normal.
    rewrite get_last_estimate_on_loaded. reflexivity.
  - apply str_eqb_neq in Hc.
    rewrite set_last_estimate_normal. unfold normal.
    rewrite set_last_estimate_on_loaded. cbv zeta. cbn [snd].
    rewrite view_loaded. unfold put_session. cbn [sessions set_sessions].
    apply dict_get_set_other. exact Hc.
  - apply str_eqb_neq in Hc.
    rewrite calibrate_from_actual_normal. unfold normal.
    destruct (last_estimate_at s' (sessions (view w))) as [e|] eqn:He.
    + destruct (Z.leb_spec e 0) as [Hle | Hpos].
      * rewrite calibrate_on_loaded_none by (rewrite He; exact Hle).
        reflexivity.
      * destruct (int_truediv a e) as [q | x] eqn:Hq.
        -- destruct (calibrate_on_loaded_some (disk w) (disk_writable w)
                       (clock w) (view w) (ticks w) s' a e q He Hpos Hq)
             as [g [k [t Hcal]]].
           rewrite Hcal. cbv zeta. cbn [snd]. rewrite view_loaded.
           cbn [sessions]. apply dict_get_set_other. exact Hc.
        -- rewrite (calibrate_on_loaded_raise _ _ _ _ _ _ _ e x He Hpos Hq).
           reflexivity.
    + rewrite calibrate_on_loaded_none by (rewrite He; exact I).
      reflexivity.
  - apply str_eqb_neq in Hc.
    rewrite clear_session_normal. unfold normal.
    rewrite clear_session_on_loaded. cbn [snd].
    destruct (dict_mem (sessions (view w)) s'); [|reflexivity].
    cbv zeta. rewrite view_loaded. cbn [sessions set_sessions].
    apply dict_get_del_other. exact Hc.
  - rewrite get_calibration_stats_normal. reflexivity.
Qed.

Lemma get_factor_view (s : str) (w : World) :
  fst (get_factor s w)
  = Ok (match factor_at s (sessions (view w)) with
        | Some f => f
        | None => 1%float
        end).
Proof.
  rewrite get_factor_normal. unfold normal.
  rewrite get_factor_on_loaded. reflexivity.
Qed.

Lemma get_last_estimate_view (s : str) (w : World) :
  fst (get_last_estimate s w) = Ok (last_estimate_at s (sessions (view w))).
Proof.
  rewrite get_last_estimate_normal. unfold normal.
  rewrite get_last_estimate_on_loaded. reflexivity.
Qed.

(** X3: sessions are independent: within one process, a history of calls
    none of which names the session [s] changes neither [get_factor(s)] nor
    [get_last_estimate(s)], whatever it does to other sessions. *)
Theorem X3_sessions_independent (w : World) (s : str) (cs : list call) :
  forallb (fun c => negb (touches s c)) cs = true ->
  fst (get_factor s (run_calls cs w)) = fst (get_factor s w)
  /\ fst (get_last_estimate s (run_calls cs w))
     = fst (get_last_estimate s w).
Proof.
  intros Hcs.
  assert (H : dict_get (sessions (view (run_calls cs w))) s
              = dict_get (sessions (view w)) s).
  { revert w. induction cs as [|c cs IH]; intros w; [reflexivity|].
    simpl in Hcs. apply andb_true_iff in Hcs. destruct Hcs as [Hc Hcs].
    apply negb_true_iff in Hc.
    unfold run_calls. simpl. fold (run_calls cs (run_call c w)).
    rewrite (IH Hcs). apply run_call_frame. exact Hc. }
  rewrite !get_factor_view, !get_last_estimate_view.
  unfold factor_at, last_estimate_at. rewrite H. split; reflexivity.
Qed.

(** X3 on a history that sets, calibrates and clears two other sessions. *)
Lemma X3_witness :
  let w := snd (set_last_estimate (py "mine") 4000
                  (snd (set_factor (py "mine") 1.5 (fresh tick_clock)))) in
  let cs := [ SetFactor (py "a") 0.75; SetLastEstimate (py "b") 10;
              CalibrateFromActual (py "b") 20; ClearSession (py "a");
              GetCalibrationStats ] in
  fst (get_factor (py "mine") (run_calls cs w)) = Ok 1.5%float
  /\ fst (get_last_estimate (py "mine") (run_calls cs w)) = Ok (Some 4000).
Proof.
  cbv zeta.
  destruct (X3_sessions_independent
              (snd (set_last_estimate (py "mine") 4000
                      (snd (set_factor (py "mine") 1.5 (fresh tick_clock)))))
              (py "mine")
              [ SetFactor (py "a") 0.75; SetLastEstimate (py "b") 10;
                CalibrateFromActual (py "b") 20; ClearSession (py "a");
                GetCalibrationStats ]) as [H1 H2].
  - vm_compute. reflexivity.
  - rewrite H1, H2. split; vm_compute; reflexivity.
Defined.

(** X4: [set_last_estimate(s, t)] never raises; afterwards
    [get_last_estimate(s)] returns [t], and the factor of [s] is the one it
    had before (1.0 when it had none). *)
Theorem X4_set_last_estimate_keeps_factor (w : World) (s : str) (t : Z) :
  let w' := snd (set_last_estimate s t w) in
  fst (set_last_estimate s t w) = Ok tt
  /\ fst (get_last_estimate s w') = Ok (Some t)
  /\ fst (get_factor s w') = fst (get_factor s w).
Proof.
  cbv zeta. rewrite (get_factor_view s w).
  rewrite set_last_estimate_normal. unfold normal.
  rewrite set_last_estimate_on_loaded. cbv zeta. cbn [fst snd].
  rewrite get_last_estimate_on_loaded, get_factor_on_loaded. cbn [fst].
  unfold last_estimate_at, put_session. cbn [sessions set_sessions].
  rewrite factor_at_set_same, dict_get_set_same.
  cbn [factor last_estimate with_estimate]. rewrite factor_record_of.
  auto.
Qed.

End CalibrationMore.

Section CalibrationPersistence.
Import Calibration.
Local Open Scope cal_scope.




(** X6: a calibration uses up the estimate.  After a successful
    [calibrate_from_actual(s, a)] the record of [s] has no [last_estimate],
    so every further [calibrate_from_actual(s, a')] returns [None] and
    changes nothing until a new estimate is recorded. *)
Theorem X6_calibration_uses_up_estimate (w : World) (s : str) (e a a' : Z)
  (q : float) :
  0 < e -> int_truediv a e = Ok q ->
  let w2 := snd (calibrate_from_actual s a (snd (set_last_estimate s e w))) in
  fst (get_last_estimate s w2) = Ok None
  /\ calibrate_from_actual s a' w2 = (Ok None, w2)
  /\ fst (get_factor s w2) = Ok (clamp q).
Proof.
  intros He Hq. cbv zeta.
  rewrite set_last_estimate_normal. unfold normal.
  rewrite set_last_estimate_on_loaded. cbv zeta. cbn [snd].
  match goal with
  | |- context [calibrate_from_actual s a (loaded ?d ?dk ?wr ?clk ?n)] =>
    destruct (calibrate_on_loaded_some dk wr clk d n s a e q)
      as [g [k [t Hc]]]; auto
  end.
  { unfold last_estimate_at, put_session. cbn [sessions set_sessions].
    rewrite dict_get_set_same. reflexivity. }
  rewrite Hc. cbv zeta. cbn [snd].
  rewrite get_last_estimate_on_loaded, get_factor_on_loaded.
  cbn [fst sessions].
  assert (Hle : last_estimate_at s
                  (dict_set
                     (sessions
                        (put_session s
                           (with_estimate (record_of s (sessions (view w)))
                              e (clock w (ticks w))) (view w)))
                     s (with_actual
                          (factor_record (clamp q) (clock w (S (ticks w))))
                          a t)) = None).
  { unfold last_estimate_at. rewrite dict_get_set_same. reflexivity. }
  refine (conj _ (conj _ _)).
  - rewrite Hle. reflexivity.
  - apply calibrate_on_loaded_none. cbn [sessions]. rewrite Hle. exact I.
  - rewrite factor_at_set_same. reflexivity.
Qed.

(** X6 at an estimate of 10000 and an actual count of 11000. *)
Lemma X6_witness :
  let w2 := snd (calibrate_from_actual (py "s") 11000
                   (snd (set_last_estimate (py "s") 10000
                           (fresh tick_clock)))) in
  fst (calibrate_from_actual (py "s") 12000 w2) = Ok None.
Proof.
  cbv zeta.
  destruct (X6_calibration_uses_up_estimate (fresh tick_clock) (py "s")
              10000 11000 12000 (PrimFloat.div 11 10)) as (_ & H & _).
  - lia.
  - vm_compute. reflexivity.
  - cbv zeta in H. rewrite H. reflexivity.
Defined.

(** X7: the three readers never raise, never write the calibration file
    and leave the store as the next call sees it unchanged; on a world
    whose cache is loaded they change nothing at all. *)
Theorem X7_readers_do_not_write (w : World) (s : str) :
  (exists f, fst (get_factor s w) = Ok f)
  /\ (exists o, fst (get_last_estimate s w) = Ok o)
  /\ (exists st, fst (get_calibration_stats w) = Ok st)
  /\ snd (get_factor s w) = snd (_load_calibration w)
  /\ snd (get_last_estimate s w) = snd (_load_calibration w)
  /\ snd (get_calibration_stats w) = snd (_load_calibration w)
  /\ disk (snd (_load_calibration w)) = disk w
  /\ view (snd (_load_calibration w)) = view w
  /\ (forall d dk wr clk n,
        w = loaded d dk wr clk n -> snd (_load_calibration w) = w).
Proof.
  rewrite get_factor_normal, get_last_estimate_normal,
    get_calibration_stats_normal, load_loaded.
  unfold normal. rewrite get_factor_on_loaded, get_last_estimate_on_loaded.
  cbn [fst snd].
  refine (conj _ (conj _ (conj _ (conj eq_refl (conj eq_refl
            (conj eq_refl (conj eq_refl (conj eq_refl _)))))))).
  - eexists; reflexivity.
  - eexists; reflexivity.
  - unfold get_calibration_stats. rewrite bind_load. eexists; reflexivity.
  - intros d dk wr clk n ->. reflexivity.
Qed.

(** X8: when the quotient [actual / estimate] is too large for a float,
    [calibrate_from_actual] raises [OverflowError] before anything is
    written: the store and the file are unchanged and the estimate is
    still there. *)
Theorem X8_overflow_changes_nothing (w : World) (s : str) (e a : Z)
  (x : exn) :
  fst (get_last_estimate s w) = Ok (Some e) -> 0 < e ->
  int_truediv a e = Raise x ->
  let r := calibrate_from_actual s a w in
  fst r = Raise x
  /\ snd r = snd (_load_calibration w)
  /\ view (snd r) = view w
  /\ disk (snd r) = disk w
  /\ fst (get_last_estimate s (snd r)) = Ok (Some e).
Proof.
  intros He Hpos Hq. cbv zeta.
  rewrite get_last_estimate_view in He.
  assert (He' : last_estimate_at s (sessions (view w)) = Some e)
    by congruence.
  rewrite calibrate_from_actual_normal, load_loaded. unfold normal.
  rewrite (calibrate_on_loaded_raise _ _ _ _ _ _ _ e x He' Hpos Hq).
  cbn [fst snd]. rewrite get_last_estimate_on_loaded. cbn [fst].
  rewrite He'. auto 6.
Qed.

(** X8 at an estimate of 1 token and an actual count of [10^400]. *)
Lemma X8_witness :
  let w := snd (set_last_estimate (py "s") 1 (fresh tick_clock)) in
  fst (calibrate_from_actual (py "s") (10 ^ 400) w) = Raise OverflowError
  /\ snd (calibrate_from_actual (py "s") (10 ^ 400) w) = w.
Proof.
  cbv zeta.
  destruct (X8_overflow_changes_nothing
              (snd (set_last_estimate (py "s") 1 (fresh tick_clock)))
              (py "s") 1 (10 ^ 400) OverflowError)
    as (H1 & H2 & _).
  - vm_compute. reflexivity.
  - lia.
  - vm_compute. reflexivity.
  - split; [exact H1 | rewrite H2; reflexivity].
Defined.



End CalibrationPersistence.

(* ================================================================== *)
(** * Further properties of the tokenizer module *)
(* ================================================================== *)

Section TokenizerMore.
Import Tokenizer.

Lemma partial_match_in (l : str) (d : dict Z) (w : Z) :
  partial_match l d = Some w -> In w (map snd d).
Proof.
  induction d as [|[k v] d IH]; simpl; [discriminate|].
  destruct (negb (str_eqb k k_default) && str_in k l).
  - intros H; inversion H; auto.
  - auto.
Qed.

(** X10: [get_context_window] never raises, for any name: it always
    returns one of the windows of the table, hence a value between 8192
    and 2000000. *)
Theorem X10_get_context_window_total (model : option str) :
  exists w,
    get_context_window model = Ok w
    /\ In w (map snd MODEL_CONTEXT_WINDOWS)
    /\ 8192 <= w <= 2000000.
Proof.
  assert (Hrange : forall w, In w (map snd MODEL_CONTEXT_WINDOWS) ->
                             8192 <= w <= 2000000).
  { intros w Hin. unfold MODEL_CONTEXT_WINDOWS in Hin. simpl in Hin.
    repeat (destruct Hin as [<- | Hin]; [lia|]). destruct Hin. }
  assert (Hdef : In 176000 (map snd MODEL_CONTEXT_WINDOWS))
    by (unfold MODEL_CONTEXT_WINDOWS; simpl; tauto).
  destruct model as [[|c m]|].
  - exists 176000. split; [reflexivity | split; [exact Hdef | lia]].
  - rewrite get_context_window_nonempty by discriminate.
    destruct (dict_get MODEL_CONTEXT_WINDOWS (lower (c :: m))) as [w|] eqn:E.
    + exists w. split; [reflexivity|].
      assert (In w (map snd MODEL_CONTEXT_WINDOWS)).
      { apply dict_get_key in E. apply (in_map snd) in E. exact E. }
      auto.
    + destruct (partial_match (lower (c :: m)) MODEL_CONTEXT_WINDOWS)
        as [w|] eqn:P.
      * exists w. apply partial_match_in in P. auto.
      * exists 176000. split; [reflexivity | split; [exact Hdef | lia]].
  - exists 176000. split; [reflexivity | split; [exact Hdef | lia]].
Qed.

Lemma get_thinking_multiplier_nonempty (m : str) :
  m <> [] ->
  get_thinking_multiplier (Some m)
  = if str_in k_high_thinking (lower m) then 5%float
    else if str_in k_thinking (lower m) then 3%float
    else if str_in k_max (lower m) then 2%float
    else 1%float.
Proof.
  intros Hm. destruct m as [|c m]; [congruence|].
  unfold get_thinking_multiplier, THINKING_MULTIPLIERS.
  cbn [thinking_match].
  change [104; 105; 103; 104; 45; 116; 104; 105; 110; 107; 105; 110; 103]%N
    with k_high_thinking.
  change [116; 104; 105; 110; 107; 105; 110; 103]%N with k_thinking.
  change [109; 97; 120]%N with k_max.
  destruct (str_in k_high_thinking (lower (c :: m))); [reflexivity|].
  destruct (str_in k_thinking (lower (c :: m))); [reflexivity|].
  destruct (str_in k_max (lower (c :: m))); reflexivity.
Qed.

(** X11: [get_thinking_multiplier] is 1.0 for [None] and [""]; a name that
    contains ["high-thinking"] also contains ["thinking"] and gets 5.0, the
    mode listed first; a name whose lowercase form contains ["thinking"]
    but not ["high-thinking"] gets 3.0; one that contains only ["max"] gets
    2.0; any other name gets 1.0.  Names are compared in lowercase. *)
Theorem X11_thinking_multiplier (m : str) :
  get_thinking_multiplier None = 1%float
  /\ get_thinking_multiplier (Some []) = 1%float
  /\ (str_in k_high_thinking m = true ->
      str_in k_thinking m = true
      /\ get_thinking_multiplier (Some m) = 5%float)
  /\ (str_in k_high_thinking (lower m) = false ->
      str_in k_thinking (lower m) = true ->
      get_thinking_multiplier (Some m) = 3%float)
  /\ (str_in k_thinking (lower m) = false ->
      str_in k_max (lower m) = true ->
      get_thinking_multiplier (Some m) = 2%float)
  /\ (str_in k_thinking (lower m) = false ->
      str_in k_max (lower m) = false ->
      get_thinking_multiplier (Some m) = 1%float).
Proof.
  assert (Hsub : forall l, str_in k_thinking l = false ->
                           str_in k_high_thinking l = false).
  { intros l H. destruct (str_in k_high_thinking l) eqn:E; [|reflexivity].
    rewrite (str_in_trans k_thinking k_high_thinking l eq_refl E) in H.
    discriminate H. }
  refine (conj eq_refl (conj eq_refl (conj _ (conj _ (conj _ _))))).
  - intros H. split; [apply (str_in_trans _ k_high_thinking); auto|].
    assert (Hm : m <> []) by (intros ->; discriminate H).
    apply (str_in_lower k_high_thinking) in H; [|reflexivity].
    rewrite get_thinking_multiplier_nonempty, H by assumption. reflexivity.
  - intros H1 H2.
    assert (Hm : m <> []) by (intros ->; discriminate H2).
    rewrite get_thinking_multiplier_nonempty, H1, H2 by assumption.
    reflexivity.
  - intros H1 H2.
    assert (Hm : m <> []) by (intros ->; discriminate H2).
    rewrite get_thinking_multiplier_nonempty, (Hsub _ H1), H1, H2
      by assumption.
    reflexivity.
  - intros H1 H2. destruct m as [|c m]; [reflexivity|].
    rewrite get_thinking_multiplier_nonempty, (Hsub _ H1), H1, H2
      by discriminate.
    reflexivity.
Qed.

(** X11 at four names. *)
Lemma X11_witness :
  get_thinking_multiplier (Some (py "claude-4.5-opus-high-thinking"))
  = 5%float
  /\ get_thinking_multiplier (Some (py "Claude-4-Sonnet-Thinking")) = 3%float
  /\ get_thinking_multiplier (Some (py "gpt-5-MAX")) = 2%float
  /\ get_thinking_multiplier (Some (py "gpt-4o")) = 1%float.
Proof.
  refine (conj _ (conj _ (conj _ _))).
  - destruct (X11_thinking_multiplier (py "claude-4.5-opus-high-thinking"))
      as (_ & _ & H & _).
    apply H. vm_compute. reflexivity.
  - destruct (X11_thinking_multiplier (py "Claude-4-Sonnet-Thinking"))
      as (_ & _ & _ & H & _).
    apply H; vm_compute; reflexivity.
  - destruct (X11_thinking_multiplier (py "gpt-5-MAX"))
      as (_ & _ & _ & _ & H & _).
    apply H; vm_compute; reflexivity.
  - destruct (X11_thinking_multiplier (py "gpt-4o"))
      as (_ & _ & _ & _ & _ & H).
    apply H; vm_compute; reflexivity.
Defined.



(** X13: the percentage returned by [calculate_context_percentage] is
    never above 100, and it is exactly 0 for a window that is zero or
    negative, whatever the token count. *)
Theorem X13_percentage_capped (tokens window : Z) (r : float) :
  calculate_context_percentage tokens window = Ok r ->
  PrimFloat.ltb 100 r = false /\ (window <= 0 -> r = 0%float).
Proof.
  unfold calculate_context_percentage. intros H.
  destruct (Z.leb_spec window 0) as [Hle | Hgt].
  - assert (r = 0%float) by congruence. subst r.
    split; [vm_compute; reflexivity | reflexivity].
  - split; [|lia].
    unfold rbind in H. destruct (int_truediv tokens window) as [q|];
      [|discriminate].
    unfold fmin in H.
    destruct (PrimFloat.ltb 100 (PrimFloat.mul q 100)) eqn:E.
    + assert (r = 100%float) by congruence. subst r.
      vm_compute. reflexivity.
    + assert (r = PrimFloat.mul q 100) by congruence. subst r. exact E.
Qed.

(** X13 at 250000 tokens on a window of 200000. *)
Lemma X13_witness : PrimFloat.ltb 100 100 = false.
Proof.
  apply (X13_percentage_capped 250000 200000 100).
  vm_compute. reflexivity.
Defined.

(** X14: without an encoder the estimate [e] of a text of [n] characters
    satisfies [4 e <= n <= 4 e + 3]; the estimate of a concatenation is
    the sum of the estimates of its parts or one more, and it never
    decreases when text is appended. *)
Theorem X14_fallback_estimate (a b : str) :
  let est t := fst (estimate_tokens None None (Some t)) in
  4 * est a <= len a <= 4 * est a + 3
  /\ est a + est b <= est (a ++ b) <= est a + est b + 1
  /\ est a <= est (a ++ b).
Proof.
  cbv beta zeta. rewrite !estimate_fallback, len_app.
  pose proof (len_nonneg a). pose proof (len_nonneg b).
  pose proof (Z.div_mod (len a) 4 ltac:(lia)).
  pose proof (Z.div_mod (len b) 4 ltac:(lia)).
  pose proof (Z.div_mod (len a + len b) 4 ltac:(lia)).
  pose proof (Z.mod_pos_bound (len a) 4 ltac:(lia)).
  pose proof (Z.mod_pos_bound (len b) 4 ltac:(lia)).
  pose proof (Z.mod_pos_bound (len a + len b) 4 ltac:(lia)).
  lia.
Qed.

End TokenizerMore.

(* ================================================================== *)
(** * Skill overhead *)
(* ================================================================== *)

Section SkillsMore.
Import SkillsPy.

(** X15: [estimate_skill_tokens] counts the files found and charges 50
    tokens for each; the result is computed once: a later call returns the
    cached pair whatever is on the file system by then, and after
    [clear_cache] the next call counts again. *)
Theorem X15_skill_tokens_cached (found found' : list str) :
  let n := Z.of_nat (List.length found) in
  let n' := Z.of_nat (List.length found') in
  let c1 := snd (estimate_skill_tokens found None) in
  fst (estimate_skill_tokens found None) = (n, 50 * n)
  /\ estimate_skill_tokens found' c1 = ((n, 50 * n), c1)
  /\ fst (estimate_skill_tokens found' (clear_cache c1)) = (n', 50 * n')
  /\ fst (estimate_skill_tokens [] None) = (0, 0).
Proof.
  cbv zeta. unfold estimate_skill_tokens, clear_cache,
    TOKENS_PER_SKILL_METADATA. cbn [fst snd].
  rewrite !(Z.mul_comm _ 50). auto.
Qed.

(** X16: the initial estimate adds the system prompt allowance of 2500 to
    the skill tokens, and its percentages and window are exactly those
    [calculate_context_metrics] reports for that total and the same model;
    with a cold cache the total is [50 * count + 2500]. *)
Theorem X16_initial_estimate (found : list str) (c : cache)
  (model : option str) :
  let count := fst (fst (estimate_skill_tokens found c)) in
  let toks := snd (fst (estimate_skill_tokens found c)) in
  fst (get_initial_context_estimate found c model)
  = (m <- Tokenizer.calculate_context_metrics (toks + 2500) model ;;
     Ok {| skill_count := count;
           skill_tokens := toks;
           system_prompt_tokens := 2500;
           total_initial_tokens := Tokenizer.estimated_tokens m;
           used_percentage := Tokenizer.used_percentage m;
           remaining_percentage := Tokenizer.remaining_percentage m;
           context_window_size := Tokenizer.context_window_size m |})%py
  /\ snd (get_initial_context_estimate found c model)
     = snd (estimate_skill_tokens found c)
  /\ (c = None ->
      toks + 2500 = 50 * Z.of_nat (List.length found) + 2500
      /\ 2500 <= toks + 2500).
Proof.
  cbv zeta. unfold get_initial_context_estimate,
    Tokenizer.calculate_context_metrics, Tokenizer.metrics_for_window.
  destruct (estimate_skill_tokens found c) as [[count toks] c'] eqn:E.
  cbn [fst snd]. unfold SYSTEM_PROMPT_TOKENS.
  refine (conj _ (conj eq_refl _)).
  - destruct (Tokenizer.get_context_window model) as [w|]; [|reflexivity].
    cbn [rbind].
    destruct (Tokenizer.calculate_context_percentage (toks + 2500) w);
      reflexivity.
  - intros ->. unfold estimate_skill_tokens, TOKENS_PER_SKILL_METADATA in E.
    inversion E. lia.
Qed.

(** X16 with 21 skills found and the default window. *)
Lemma X16_witness :
  option_map total_initial_tokens
    (match fst (get_initial_context_estimate
                  (repeat (py "SKILL.md") 21) None None) with
     | Ok e => Some e
     | Raise _ => None
     end) = Some 3550.
Proof.
  destruct (X16_initial_estimate (repeat (py "SKILL.md") 21) None None)
    as (H & _ & K).
  destruct (K eq_refl) as [K1 _].
  cbv zeta in H. rewrite H. vm_compute. reflexivity.
Defined.

End SkillsMore.

(* ================================================================== *)
(** * Further properties of the report parser *)
(* ================================================================== *)

Section ParserMore.
Import Re ContextParser.
Local Open Scope py_scope.

(** The shape of a parse that returns a breakdown. *)
Lemma parse_context_output_shape (output : str) (bd : ContextBreakdown) :
  parse_context_output output = Ok (Some bd) ->
  str_in s_context_usage output = true
  /\ exists b mcp agents memory sk,
      parse_summary output = Ok b
      /\ bd = set_slot (set_slot (set_slot (set_slot b McpTools mcp)
                                           CustomAgents agents)
                                 MemoryFiles memory)
                       Skills sk.
Proof.
  unfold parse_context_output, rbind. intros H.
  destruct (str_in s_context_usage output); [|discriminate].
  split; [reflexivity|]. cbn [negb] in H.
  destruct (parse_summary output) as [b|]; [|discriminate].
  destruct (parse_section output s_mcp_tools (mcp_tools b)) as [m1|];
    [|discriminate].
  destruct (parse_section output s_custom_agents (custom_agents b))
    as [m2|]; [|discriminate].
  destruct (parse_section output s_memory_files (memory_files b))
    as [m3|]; [|discriminate].
  destruct (parse_section output s_skills (skills b)) as [m4|];
    [|discriminate].
  exists b, m1, m2, m3, m4. split; [reflexivity | congruence].
Qed.

Lemma parse_categories_header (ms : list Match) :
  forall b b', parse_categories b ms = Ok b' -> header_of b' = header_of b.
Proof.
  induction ms as [|m ms IH]; intros b b' H; simpl in H.
  - inversion H; reflexivity.
  - unfold rbind in H at 1.
    destruct (parse_category b m) as [b1|] eqn:E; [|discriminate].
    rewrite (IH b1 b' H).
    unfold parse_category, rbind in E.
    destruct (float_of_str (group m 2)); [|discriminate].
    destruct (if match group_opt m 3 with
                 | Some s => str_eqb s s_k
                 | None => false
                 end then _ else _); [|discriminate].
    destruct (float_of_str (group m 4)); [|discriminate].
    inversion E; subst b1.
    destruct (classify (lower (strip (group m 1)))); reflexivity.
Qed.

(** X17: [parse_context_output] returns [None] exactly when the text does
    not contain ["Context Usage"]; with the marker present it returns a
    breakdown or raises, and a breakdown carries the input as
    [raw_output]. *)
Theorem X17_marker_decides_none (output : str) (bd : ContextBreakdown) :
  (str_in s_context_usage output = false ->
   parse_context_output output = Ok None)
  /\ (parse_context_output output = Ok None ->
      str_in s_context_usage output = false)
  /\ (parse_context_output output = Ok (Some bd) ->
      str_in s_context_usage output = true /\ raw_output bd = output).
Proof.
  refine (conj _ (conj _ _)).
  - intros H. unfold parse_context_output. rewrite H. reflexivity.
  - unfold parse_context_output, rbind.
    destruct (str_in s_context_usage output); [|reflexivity].
    cbn [negb]. intros H.
    destruct (parse_summary output) as [b|]; [|discriminate].
    destruct (parse_section output s_mcp_tools (mcp_tools b));
      [|discriminate].
    destruct (parse_section output s_custom_agents (custom_agents b));
      [|discriminate].
    destruct (parse_section output s_memory_files (memory_files b));
      [|discriminate].
    destruct (parse_section output s_skills (skills b)); discriminate.
  - intros H. apply parse_context_output_shape in H.
    destruct H as [Hm (b & m1 & m2 & m3 & m4 & Hs & ->)].
    split; [exact Hm|].
    change (raw_output b = output).
    unfold parse_summary, rbind in Hs.
    destruct (parse_header output (empty_breakdown output)) as [b0|] eqn:E;
      [|discriminate].
    apply parse_categories_header in Hs.
    assert (R : raw_output b = raw_output b0)
      by (unfold header_of in Hs; congruence).
    rewrite R. unfold parse_header in E.
    destruct (search header_pattern output) as [m|].
    + unfold rbind in E.
      repeat match type of E with
             | context [match ?x with Ok _ => _ | Raise _ => _ end] =>
               destruct x; try discriminate E
             end.
      inversion E; reflexivity.
    + inversion E; reflexivity.
Qed.

(** X17 on a text without the marker and on a report. *)
Lemma X17_witness :
  parse_context_output (py "⛁ Skills: 687 tokens (0.3%)") = Ok None
  /\ raw_output sections_breakdown = report_sections.
Proof.
  destruct (X17_marker_decides_none (py "⛁ Skills: 687 tokens (0.3%)")
              sections_breakdown) as (H & _).
  destruct (X17_marker_decides_none report_sections sections_breakdown)
    as (_ & _ & K).
  split.
  - apply H. vm_compute. reflexivity.
  - apply K. vm_compute. reflexivity.
Defined.





(** X20: only the four sections with items ever receive items: in every
    breakdown returned, the categories system prompt, system tools,
    messages, free space and autocompact buffer have an empty item list. *)
Theorem X20_plain_categories_have_no_items (output : str)
  (bd : ContextBreakdown) (f : slot) (c : ContextCategory) :
  parse_context_output output = Ok (Some bd) ->
  In f plain_slots -> get_slot bd f = Some c -> items c = [].
Proof.
  intros H Hf Hc. apply parse_context_output_shape in H.
  destruct H as [_ (b & m1 & m2 & m3 & m4 & Hs & ->)].
  apply parse_summary_no_items in Hs. apply (Hs f c).
  rewrite !get_set_slot in Hc. unfold plain_slots in Hf.
  destruct Hf as [<- | [<- | [<- | [<- | [<- | []]]]]]; exact Hc.
Qed.

(** X20 on the sample report of the module: its Messages category, 25500
    tokens, has no items. *)
Lemma X20_witness :
  tokens sample_messages = 25500 /\ items sample_messages = [].
Proof.
  split; [reflexivity|].
  apply (X20_plain_categories_have_no_items sample_output
           sample_breakdown Messages sample_messages).
  - vm_compute. reflexivity.
  - unfold plain_slots. simpl. tauto.
  - reflexivity.
Defined.

End ParserMore.

Section TerminalSearch.
Import Re ContextParser.

Lemma rfind_from_none (sub s : str) :
  forall i, 0 <= i -> rfind_from sub s i = -1 -> str_in sub s = false.
Proof.
  induction s as [|c t IH]; intros i Hi H; simpl in H |- *.
  - destruct (startswith sub []); [lia | reflexivity].
  - destruct (Z.eqb_spec (rfind_from sub t (i + 1)) (-1)) as [E | E].
    + rewrite (IH (i + 1) ltac:(lia) E).
      destruct (startswith sub (c :: t)); [lia | reflexivity].
    + congruence.
Qed.

Lemma rfind_from_found (sub s : str) :
  forall i r, 0 <= i -> rfind_from sub s i = r -> r <> -1 ->
    i <= r /\ startswith sub (skipn (Z.to_nat (r - i)) s) = true.
Proof.
  induction s as [|c t IH]; intros i r Hi H Hr; simpl in H.
  - destruct (startswith sub []) eqn:E; [|congruence].
    subst r. rewrite Z.sub_diag. split; [lia | exact E].
  - destruct (Z.eqb_spec (rfind_from sub t (i + 1)) (-1)) as [E | E].
    + destruct (startswith sub (c :: t)) eqn:S; [|congruence].
      subst r. rewrite Z.sub_diag. split; [lia | exact S].
    + destruct (IH (i + 1) r ltac:(lia) H Hr) as [Hle Hs].
      split; [lia|].
      replace (Z.to_nat (r - i)) with (S (Z.to_nat (r - (i + 1)))) by lia.
      exact Hs.
Qed.

Lemma str_rfind_none (sub s : str) :
  str_rfind sub s = -1 -> str_in sub s = false.
Proof. apply rfind_from_none. lia. Qed.

Lemma str_rfind_found (sub s : str) (r : Z) :
  str_rfind sub s = r -> r <> -1 -> occurs sub s r.
Proof.
  intros H Hr. destruct (rfind_from_found sub s 0 r ltac:(lia) H Hr)
    as [Hle Hs].
  split; [lia|]. rewrite Z.sub_0_r in Hs. exact Hs.
Qed.

Lemma str_in_occurs (sub s : str) (p : Z) :
  occurs sub s p -> str_in sub s = true.
Proof.
  intros [Hp H]. apply startswith_spec in H. destruct H as [post H].
  apply str_in_spec. exists (firstn (Z.to_nat p) s), post.
  rewrite <- H. symmetry. apply firstn_skipn.
Qed.

(** An occurrence that lies inside a slice occurs in the slice. *)
Lemma str_in_slice (sub s : str) (a b p : Z) :
  occurs sub s p -> 0 <= a <= p -> p + len sub <= b ->
  str_in sub (slice s a b) = true.
Proof.
  intros [Hp H] Ha Hb. apply startswith_spec in H.
  destruct H as [post H].
  destruct (Nat.le_gt_cases (Z.to_nat p) (List.length s)) as [Hlen | Hgt].
  - assert (Hs : skipn (Z.to_nat a) s
                 = firstn (Z.to_nat p - Z.to_nat a) (skipn (Z.to_nat a) s)
                   ++ sub ++ post).
    { rewrite <- H.
      replace (Z.to_nat p) with ((Z.to_nat p - Z.to_nat a) + Z.to_nat a)%nat
        at 2 by lia.
      rewrite <- skipn_skipn. symmetry. apply firstn_skipn. }
    unfold slice. rewrite Hs.
    set (X := firstn (Z.to_nat p - Z.to_nat a) (skipn (Z.to_nat a) s)).
    assert (HX : List.length X = (Z.to_nat p - Z.to_nat a)%nat).
    { unfold X. rewrite length_firstn, length_skipn. lia. }
    unfold len in Hb.
    rewrite firstn_app, HX.
    rewrite (firstn_all2 X) by lia.
    rewrite firstn_app.
    rewrite (firstn_all2 sub) by lia.
    apply str_in_spec. eexists. eexists. reflexivity.
  - rewrite skipn_all2 in H by lia.
    symmetry in H. apply app_eq_nil in H. destruct H as [-> _].
    apply str_in_spec. exists [], (slice s a b). reflexivity.
Qed.

Lemma slice_part (s : str) (a b : Z) :
  exists pre post, s = pre ++ slice s a b ++ post.
Proof.
  unfold slice.
  exists (firstn (Z.to_nat a) s),
    (skipn (Z.to_nat b - Z.to_nat a) (skipn (Z.to_nat a) s)).
  rewrite firstn_skipn, firstn_skipn. reflexivity.
Qed.

Lemma len_slice (s : str) (a b : Z) :
  0 <= a -> len (slice s a b) <= Z.max 0 (b - a).
Proof.
  intros Ha. unfold slice, len. rewrite length_firstn. lia.
Qed.

(** The index chosen by the loop over the markers is the last occurrence
    of one of them, and [-1] only when neither occurs. *)
Lemma last_marker_spec (t : str) :
  (last_marker t = -1 ->
   forall mk, In mk start_markers -> str_in mk t = false)
  /\ (last_marker t <> -1 ->
      exists mk, In mk start_markers /\ occurs mk t (last_marker t)).
Proof.
  unfold last_marker, start_markers. cbn [fold_left].
  set (m1 := [67; 111; 110; 116; 101; 120; 116; 32; 85; 115; 97; 103; 101]%N).
  set (m2 := [9921; 32; 9921; 32; 9921]%N).
  pose proof (str_rfind_none m1 t) as N1.
  pose proof (str_rfind_none m2 t) as N2.
  pose proof (fun r => str_rfind_found m1 t r) as F1.
  pose proof (fun r => str_rfind_found m2 t r) as F2.
  change ((-1 =? -1) || (-1 <? str_rfind m1 t)) with true.
  rewrite andb_true_r.
  destruct (Z.eqb_spec (str_rfind m1 t) (-1)) as [E1 | E1]; cbn [negb].
  - change (-1 =? -1) with true. cbn [orb]. rewrite andb_true_r.
    destruct (Z.eqb_spec (str_rfind m2 t) (-1)) as [E2 | E2]; cbn [negb].
    + split; [|congruence].
      intros _ mk [<- | [<- | []]]; auto.
    + split; [congruence|]. intros _. exists m2. split; [simpl; tauto|].
      apply F2; auto.
  - destruct (Z.eqb_spec (str_rfind m2 t) (-1)) as [E2 | E2]; cbn [negb andb].
    + split; [congruence|]. intros _. exists m1. split; [simpl; tauto|].
      apply F1; auto.
    + destruct ((str_rfind m1 t =? -1) || (str_rfind m1 t <? str_rfind m2 t)).
      * split; [congruence|]. intros _. exists m2. split; [simpl; tauto|].
        apply F2; auto.
      * split; [congruence|]. intros _. exists m1. split; [simpl; tauto|].
        apply F1; auto.
Qed.

Lemma occurs_end (sub s : str) (p : Z) :
  sub <> [] -> occurs sub s p -> p + len sub <= len s.
Proof.
  intros Hne [Hp H]. apply startswith_spec in H. destruct H as [post H].
  assert (L : List.length (skipn (Z.to_nat p) s)
              = List.length (sub ++ post)) by (rewrite H; reflexivity).
  rewrite length_skipn, length_app in L. unfold len.
  destruct (Nat.le_gt_cases (List.length s) (Z.to_nat p)) as [Hge|]; [|lia].
  assert (List.length sub = 0%nat) by lia.
  destruct sub; [congruence | discriminate].
Qed.

(** X21: [find_context_in_terminal] returns [None] exactly when the
    terminal text contains neither ["Context Usage"] nor the glyph row
    marker; otherwise it returns a contiguous part of the text, at most
    5200 characters long, that contains one of the two markers. *)
Theorem X21_find_context_in_terminal (t block : str) :
  (find_context_in_terminal t = None <->
   forall mk, In mk start_markers -> str_in mk t = false)
  /\ (find_context_in_terminal t = Some block ->
      len block <= 5200
      /\ (exists pre post, t = pre ++ block ++ post)
      /\ exists mk, In mk start_markers /\ str_in mk block = true).
Proof.
  destruct (last_marker_spec t) as [HN HF].
  unfold find_context_in_terminal.
  destruct (Z.eqb_spec (last_marker t) (-1)) as [E | E].
  - split; [|discriminate]. split; [intros _; apply HN; exact E | reflexivity].
  - destruct (HF E) as [mk [Hin Ho]].
    assert (Hne : mk <> []).
    { unfold start_markers in Hin. destruct Hin as [<- | [<- | []]];
        discriminate. }
    assert (Hlen : len mk <= 13).
    { unfold start_markers in Hin. destruct Hin as [<- | [<- | []]];
        vm_compute; discriminate. }
    pose proof (occurs_end mk t _ Hne Ho) as Hend.
    pose proof (len_nonneg mk).
    assert (Hp : 0 <= last_marker t) by (destruct Ho; assumption).
    split.
    + split; [discriminate|].
      intros Hall. specialize (Hall mk Hin).
      rewrite (str_in_occurs mk t _ Ho) in Hall. discriminate.
    + intros Hb. inversion Hb; subst block. clear Hb.
      refine (conj _ (conj (slice_part t _ _) _)).
      * pose proof (len_slice t (Z.max 0 (last_marker t - 200))
                      (Z.min (last_marker t + 5000) (len t))
                      ltac:(lia)). lia.
      * exists mk. split; [exact Hin|].
        apply (str_in_slice mk t _ _ (last_marker t) Ho); lia.
Qed.

(** X21 on a terminal text that ends with a prompt after the report: the
    prompt is part of the block. *)
Lemma X21_witness :
  find_context_in_terminal (py "$ claude
Context Usage
⛁ ⛁ ⛁ ⛁
❯ ") = Some (py "$ claude
Context Usage
⛁ ⛁ ⛁ ⛁
❯ ")
  /\ len (py "$ claude
Context Usage
⛁ ⛁ ⛁ ⛁
❯ ") <= 5200.
Proof.
  split; [vm_compute; reflexivity|].
  apply (proj2 (X21_find_context_in_terminal (py "$ claude
Context Usage
⛁ ⛁ ⛁ ⛁
❯ ") (py "$ claude
Context Usage
⛁ ⛁ ⛁ ⛁
❯ "))).
  vm_compute. reflexivity.
Defined.

End TerminalSearch.
